(** * A custom date field over a date picker: model and properties

    The repository holds one file, [src/App.tsx], in two successive versions
    (two documents in the same file).  Both define a React component
    [CustomDateField] that sits between a text input and the date picker of
    an external UI library: it keeps the text of the input ([inputValue]) and
    the picker value ([pickerContext.value]) in step, recognises the
    shorthands "d", "d3", "m2", "y1" and "4/5" when the input loses focus,
    nudges the date on Ctrl+arrow, and draws a clear button.

    The component is modelled as a state record and one state transformer
    per event handler.  What the handlers call but the repository does not
    define is taken as an interface: the date library ([DayjsApi]) and the
    picker's validator.  The JavaScript built-ins the handlers use on
    strings ([trim], [toLowerCase], [substring], [split], [padStart],
    [parseInt], [RegExp.test]) are written out. *)

From Stdlib Require Import ZArith NArith List Bool Ascii String Lia.
From Stdlib Require Import Decimal DecimalString DecimalN DecimalPos.
Import ListNotations.

Set Implicit Arguments.

#[local] Open Scope string_scope.
#[local] Open Scope Z_scope.

(** ** JavaScript strings

    A string is a sequence of code units; the model keeps the code units
    below 256 (Latin-1), one [ascii] each.  On that range [toLowerCase] maps
    A-Z and the accented capitals U+00C0-U+00DE (U+00D7 apart) to the letter
    32 places up, and the white space [trim] removes is U+0009-U+000D,
    U+0020 and U+00A0. *)

Module JS.

Definition code (c : ascii) : N := N_of_ascii c.

Definition isDigit (c : ascii) : bool :=
  ((48 <=? code c) && (code c <=? 57))%N.

Definition isWhiteSpace (c : ascii) : bool :=
  (((9 <=? code c) && (code c <=? 13)) || (code c =? 32) || (code c =? 160))%N.

Definition lowerChar (c : ascii) : ascii :=
  let n := code c in
  if (((65 <=? n) && (n <=? 90))
      || ((192 <=? n) && (n <=? 222) && negb (n =? 215)))%N
  then ascii_of_N (n + 32) else c.

(** [s.toLowerCase()] *)
Fixpoint toLowerCase (s : string) : string :=
  match s with
  | EmptyString => EmptyString
  | String c r => String (lowerChar c) (toLowerCase r)
  end.

Fixpoint trimStart (s : string) : string :=
  match s with
  | EmptyString => EmptyString
  | String c r => if isWhiteSpace c then trimStart r else s
  end.

Fixpoint trimEnd (s : string) : string :=
  match s with
  | EmptyString => EmptyString
  | String c r =>
      match trimEnd r with
      | EmptyString => if isWhiteSpace c then EmptyString else String c EmptyString
      | r' => String c r'
      end
  end.

(** [s.trim()] *)
Definition trim (s : string) : string := trimEnd (trimStart s).

(** [s.substring(n)]: what is left of [s] from index [n] on. *)
Fixpoint substring (n : nat) (s : string) : string :=
  match n, s with
  | O, _ => s
  | S n', String _ r => substring n' r
  | S _, EmptyString => EmptyString
  end.

(** [s.split(sep)] for a separator of one code unit. *)
Fixpoint split (sep : ascii) (s : string) : list string :=
  match s with
  | EmptyString => [EmptyString]
  | String c r =>
      if Ascii.eqb c sep then EmptyString :: split sep r
      else match split sep r with
           | h :: t => String c h :: t
           | [] => [String c EmptyString]
           end
  end.

(** The first [k] code units of [fill] repeated for ever, [cur] being what
    is left of the copy in progress. *)
Fixpoint filler (k : nat) (cur fill : string) : string :=
  match k with
  | O => EmptyString
  | S k' =>
      match cur with
      | String c r => String c (filler k' r fill)
      | EmptyString =>
          match fill with
          | String c r => String c (filler k' r fill)
          | EmptyString => EmptyString
          end
      end
  end.

(** [s.padStart(n, fill)] *)
Definition padStart (n : nat) (fill s : string) : string :=
  if (n <=? String.length s)%nat then s
  else filler (n - String.length s) fill fill ++ s.

(** ** JavaScript numbers

    Every number the component handles is an integer, NaN or an infinity:
    [parseInt] results and the literal 1.  [Finite z] is the double whose
    value is the integer [z]; the two zeros are not told apart. *)

Inductive Number : Type :=
| NaN
| Finite (z : Z)
| PosInfinity
| NegInfinity.

(** The double nearest to the natural number [m], ties to even: exact below
    2^53, 53 significant bits above, infinite from 2^1024 - 2^970 on. *)
Definition roundToDouble (m : Z) : Number :=
  if m <? 2 ^ 53 then Finite m
  else
    let e := Z.log2 m - 52 in
    let q := Z.shiftr m e in
    let r := m - Z.shiftl q e in
    let half := 2 ^ (e - 1) in
    let q' := if (half <? r) || ((r =? half) && Z.odd q) then q + 1 else q in
    let v := Z.shiftl q' e in
    if 2 ^ 1024 <=? v then PosInfinity else Finite v.

Definition negate (x : Number) : Number :=
  match x with
  | NaN => NaN
  | Finite z => Finite (- z)
  | PosInfinity => NegInfinity
  | NegInfinity => PosInfinity
  end.

Definition digitValue (c : ascii) : Z := Z.of_N (code c) - 48.

(** The integer a run of decimal digits denotes, read from the left on top
    of [acc]. *)
Fixpoint digitsValue (acc : Z) (s : string) : Z :=
  match s with
  | EmptyString => acc
  | String c r => digitsValue (10 * acc + digitValue c) r
  end.

(** The longest prefix of [s] made of decimal digits. *)
Fixpoint digitPrefix (s : string) : string :=
  match s with
  | String c r => if isDigit c then String c (digitPrefix r) else EmptyString
  | EmptyString => EmptyString
  end.

(** [parseInt(s, 10)]: leading white space is skipped, one sign is read,
    then the longest run of digits; NaN when that run is empty, and
    otherwise the double nearest to the integer read.  (Past twenty digits
    the language lets an engine round the digits first; the model rounds
    once, exactly.) *)
Definition parseInt10 (s : string) : Number :=
  let s1 := trimStart s in
  let '(neg, s2) :=
    match s1 with
    | String c r =>
        if Ascii.eqb c "-" then (true, r)
        else if Ascii.eqb c "+" then (false, r)
        else (false, s1)
    | EmptyString => (false, s1)
    end in
  match digitPrefix s2 with
  | EmptyString => NaN
  | ds => let x := roundToDouble (digitsValue 0 ds) in
          if neg then negate x else x
  end.

(** The decimal writing of a natural number, without leading zeros. *)
Definition decimal (n : N) : string := NilEmpty.string_of_uint (N.to_uint n).

(** The number a natural number is as a double. *)
Definition numberOf (n : N) : Number := roundToDouble (Z.of_N n).

(** [String(z)] for an integer [z] below 10^21 in absolute value. *)
Definition intToString (z : Z) : string :=
  match z with
  | Zneg p => String "-" (decimal (Npos p))
  | _ => decimal (Z.to_N z)
  end.

(** ** Regular expressions

    The patterns of the component are built from single characters, the
    class [\d], concatenation, [+] and [{1,2}], and are anchored at both
    ends, so that [test] asks whether the whole string is in the language.
    Matching is by derivatives. *)

Inductive regex : Type :=
| Void
| Eps
| Chr (c : ascii)
| Digit
| Cat (r1 r2 : regex)
| Alt (r1 r2 : regex)
| Star (r : regex).

(** [r+] *)
Definition Plus (r : regex) : regex := Cat r (Star r).

(** [r{1,2}] *)
Definition OneOrTwo (r : regex) : regex := Cat r (Alt Eps r).

Fixpoint nullable (r : regex) : bool :=
  match r with
  | Void => false
  | Eps => true
  | Chr _ => false
  | Digit => false
  | Cat r1 r2 => nullable r1 && nullable r2
  | Alt r1 r2 => nullable r1 || nullable r2
  | Star _ => true
  end.

Fixpoint deriv (a : ascii) (r : regex) : regex :=
  match r with
  | Void => Void
  | Eps => Void
  | Chr c => if Ascii.eqb a c then Eps else Void
  | Digit => if isDigit a then Eps else Void
  | Cat r1 r2 =>
      if nullable r1 then Alt (Cat (deriv a r1) r2) (deriv a r2)
      else Cat (deriv a r1) r2
  | Alt r1 r2 => Alt (deriv a r1) (deriv a r2)
  | Star r1 => Cat (deriv a r1) (Star r1)
  end.

(** [/^r$/.test(s)] *)
Fixpoint test (r : regex) (s : string) : bool :=
  match s with
  | EmptyString => nullable r
  | String a s' => test (deriv a r) s'
  end.

(** The language of a pattern, against which [test] is checked below. *)
Inductive lang : regex -> string -> Prop :=
| lang_eps : lang Eps EmptyString
| lang_chr c : lang (Chr c) (String c EmptyString)
| lang_digit c : isDigit c = true -> lang Digit (String c EmptyString)
| lang_cat r1 r2 s1 s2 : lang r1 s1 -> lang r2 s2 -> lang (Cat r1 r2) (s1 ++ s2)
| lang_alt_l r1 r2 s : lang r1 s -> lang (Alt r1 r2) s
| lang_alt_r r1 r2 s : lang r2 s -> lang (Alt r1 r2) s
| lang_star_nil r : lang (Star r) EmptyString
| lang_star_cons r s1 s2 :
    lang r s1 -> lang (Star r) s2 -> lang (Star r) (s1 ++ s2).

(** Every code unit of [s] is a decimal digit. *)
Fixpoint allDigits (s : string) : bool :=
  match s with
  | EmptyString => true
  | String c r => isDigit c && allDigits r
  end.

(** [s] is one or two decimal digits. *)
Definition oneOrTwoDigits (s : string) : bool :=
  allDigits s && (1 <=? String.length s)%nat && (String.length s <=? 2)%nat.

End JS.

(** ** The date library

    [dayjs] is not part of the repository.  The component uses the
    operations below; an instance stands for the library together with the
    reading of the clock at the instant a handler runs. *)

(** The units the component passes to [add] and [subtract]. *)
Inductive ManipulateType : Type := day | month | year_unit.

Class DayjsApi : Type := {
  Dayjs : Type;
  (** [dayjs()] *)
  dayjs_now : Dayjs;
  (** [dayjs(text, format)] *)
  dayjs_parse : string -> string -> Dayjs;
  (** [d.isValid()] *)
  isValid : Dayjs -> bool;
  (** [d.format(f)] *)
  format : Dayjs -> string -> string;
  (** [d.add(n, unit)] and [d.subtract(n, unit)] *)
  add : Dayjs -> JS.Number -> ManipulateType -> Dayjs;
  subtract : Dayjs -> JS.Number -> ManipulateType -> Dayjs;
  (** [d.year()]: an integer, or NaN ([None]) for an Invalid Date *)
  year : Dayjs -> option Z;
  (** [d.isSame(other)], [other] possibly null *)
  isSame : Dayjs -> option Dayjs -> bool
}.

(** [dayjs.isDayjs(v)] on a value of type [Dayjs | null]. *)
Definition isDayjs {L : DayjsApi} (v : option Dayjs) : bool :=
  match v with
  | Some _ => true
  | None => false
  end.

(** Truthiness of a value of type [Dayjs | null]: an object is truthy,
    [null] is not. *)
Definition truthy {A : Type} (v : option A) : bool :=
  match v with
  | Some _ => true
  | None => false
  end.

(** Truthiness of an optional boolean prop. *)
Definition truthyFlag (b : option bool) : bool :=
  match b with
  | Some true => true
  | _ => false
  end.

(** [`${n}`] for the result of [year()]. *)
Definition yearToString (n : option Z) : string :=
  match n with
  | Some z => JS.intToString z
  | None => "NaN"
  end.

(** ** First document of [App.tsx] (lines 1-233) *)

Module Doc1.
Section CustomDateField.
Context {L : DayjsApi}.

(** [createInputValue], lines 155-160. *)
Definition createInputValue (value : option Dayjs) (fmt : string) : string :=
  match value with
  | None => ""
  | Some v => if isValid v then format v fmt else ""
  end.

(** The initial state of [useInputValue], lines 131-133. *)
Definition useInputValue_init (value : option Dayjs) (fieldFormat : string) : string :=
  createInputValue value fieldFormat.

End CustomDateField.
End Doc1.

(** ** Second document of [App.tsx] (lines 234-588) *)

Module Doc2.

(** A callback prop is known by a name; calling it is recorded. *)
Definition Callback : Type := nat.

(** What a handler does to the outside: calls on the event, on callback
    props and on the input element. *)
Inductive Call : Type :=
| PreventDefault
| StopPropagation
| Invoke (f : Callback)
| Focus
| Select.

Record FocusEvent : Type := { target_value : string }.

Record KeyboardEvent : Type := { ctrlKey : bool; key : string }.

Inductive Button : Type := ClearButton | CalendarButton.

(** The part of the [TextField] props the component computes. *)
Record TextField : Type := {
  tf_value : string;
  tf_error : bool;
  tf_focused : bool;
  tf_endAdornment : list Button
}.

(** [/^d\d+$/], [/^m\d+$/], [/^y\d+$/] and [/^\d{1,2}\/\d{1,2}$/]. *)
Definition re_days : JS.regex := JS.Cat (JS.Chr "d") (JS.Plus JS.Digit).
Definition re_months : JS.regex := JS.Cat (JS.Chr "m") (JS.Plus JS.Digit).
Definition re_years : JS.regex := JS.Cat (JS.Chr "y") (JS.Plus JS.Digit).
Definition re_shortDate : JS.regex :=
  JS.Cat (JS.OneOrTwo JS.Digit) (JS.Cat (JS.Chr "/") (JS.OneOrTwo JS.Digit)).

(** The letter that starts the shorthand of each unit: "d3", "m2", "y1". *)
Definition shorthandLetter (u : ManipulateType) : ascii :=
  match u with
  | day => "d"
  | month => "m"
  | year_unit => "y"
  end.


(** [st |> f |> g]: the statements [f] then [g], run from the state [st]. *)
#[local] Notation "st |> f" := (f st)
  (at level 55, left associativity, only parsing).

Section CustomDateField.
Context {L : DayjsApi}.

(** The state of one mounted field: the picker value and [open] flag of
    [pickerContext], the two states of [useInputValue], the two refs, and
    the calls made so far, oldest first. *)
Record Field : Type := mkField {
  value : option Dayjs;
  pickerOpen : bool;
  inputValue : string;
  lastValueProp : option Dayjs;
  shouldMaintainFocusRef : bool;
  inputRef : bool;
  calls : list Call
}.

Definition setValue (v : option Dayjs) (st : Field) : Field :=
  mkField v (pickerOpen st) (inputValue st) (lastValueProp st)
          (shouldMaintainFocusRef st) (inputRef st) (calls st).

Definition setOpen (b : bool) (st : Field) : Field :=
  mkField (value st) b (inputValue st) (lastValueProp st)
          (shouldMaintainFocusRef st) (inputRef st) (calls st).

Definition setInputValue (s : string) (st : Field) : Field :=
  mkField (value st) (pickerOpen st) s (lastValueProp st)
          (shouldMaintainFocusRef st) (inputRef st) (calls st).

Definition setLastValueProp (v : option Dayjs) (st : Field) : Field :=
  mkField (value st) (pickerOpen st) (inputValue st) v
          (shouldMaintainFocusRef st) (inputRef st) (calls st).

Definition setShouldMaintainFocus (b : bool) (st : Field) : Field :=
  mkField (value st) (pickerOpen st) (inputValue st) (lastValueProp st)
          b (inputRef st) (calls st).

Definition call (c : Call) (st : Field) : Field :=
  mkField (value st) (pickerOpen st) (inputValue st) (lastValueProp st)
          (shouldMaintainFocusRef st) (inputRef st) (calls st ++ [c]).

(** [createInputValue], lines 521-527. *)
Definition createInputValue (value : option Dayjs) (fmt : string) : string :=
  match value with
  | None => ""
  | Some v => if isValid v then format v fmt else ""
  end.

(** The props and context that stay fixed while the field is mounted. *)
Variable fieldFormat : string.
Variable clearable : option bool.
Variable onClear : option Callback.
Variable onBlur : option Callback.

(** The validator of the picker library: the error of a value, if any. *)
Variable validateDate : option Dayjs -> option string.

(** [useValidation(...).hasValidationError], lines 276-281. *)
Definition hasValidationError (st : Field) : bool :=
  truthy (validateDate (value st)).

(** The initial state of [useInputValue], lines 498-500. *)
Definition useInputValue_init (value : option Dayjs) : string :=
  createInputValue value fieldFormat.

(** The effect of [useInputValue], lines 502-516. *)
Definition useInputValue_effect (st : Field) : Field :=
  if negb (isDayjs (value st))
     || negb (match value st with
              | Some v => isSame v (lastValueProp st)
              | None => false
              end)
     || (negb (truthy (lastValueProp st)) && truthy (value st))
     || (truthy (lastValueProp st) && negb (truthy (value st)))
  then st |> setLastValueProp (value st)
          |> setInputValue (createInputValue (value st) fieldFormat)
  else st.

(** The effect that keeps the focus after a shortcut, lines 284-293. *)
Definition maintainFocus_effect (st : Field) : Field :=
  if shouldMaintainFocusRef st then
    let st1 := st |> setShouldMaintainFocus false in
    if inputRef st1 then st1 |> call Focus |> call Select else st1
  else st.

(** [handleChange], lines 295-301. *)
Definition handleChange (st : Field) (newInputValue : string) : Field :=
  setInputValue newInputValue st.

(** The end of [handleBlur], lines 350-352. *)
Definition forwardBlur (st : Field) : Field :=
  match onBlur with
  | Some f => st |> call (Invoke f)
  | None => st
  end.

(** One of the three branches "d<n>", "m<n>", "y<n>" of [handleBlur]. *)
Definition addFromToday (lower : string) (unit : ManipulateType) (st : Field) : Field :=
  let amount := JS.parseInt10 (JS.substring 1 lower) in
  let newDate := add dayjs_now amount unit in
  st |> setValue (Some newDate)
     |> setInputValue (createInputValue (Some newDate) fieldFormat).

(** The text the short-date branch hands to the parser, line 338. *)
Definition shortDateText (m d : string) : string :=
  JS.padStart 2 "0" m ++ "/" ++ JS.padStart 2 "0" d
  ++ "/" ++ yearToString (year dayjs_now).

(** [handleBlur], lines 303-353.  [None] is the TypeError of calling
    [padStart] on a part that [split] did not produce. *)
Definition handleBlur (st : Field) (event : FocusEvent) : option Field :=
  let currentInput := JS.trim (target_value event) in
  let lower := JS.toLowerCase currentInput in
  let handled :=
    if String.eqb lower "d" then
      let today := dayjs_now in
      Some (st |> setValue (Some today)
               |> setInputValue (createInputValue (Some today) fieldFormat))
    else if JS.test re_days lower then Some (addFromToday lower day st)
    else if JS.test re_months lower then Some (addFromToday lower month st)
    else if JS.test re_years lower then Some (addFromToday lower year_unit st)
    else if JS.test re_shortDate currentInput then
      match JS.split "/" currentInput with
      | m :: d :: _ =>
          let newDate := dayjs_parse (shortDateText m d) "MM/DD/YYYY" in
          if isValid newDate then
            Some (st |> setValue (Some newDate)
                     |> setInputValue (createInputValue (Some newDate) fieldFormat))
          else Some st
      | _ => None
      end
    else
      let newValue := dayjs_parse currentInput fieldFormat in
      Some (st |> setValue (Some newValue))
  in option_map forwardBlur handled.

(** [handleClearClick], lines 355-364. *)
Definition handleClearClick (st : Field) : Field :=
  let st1 := st |> call PreventDefault |> setValue None |> setInputValue "" in
  let st2 := match onClear with
             | Some f => st1 |> call (Invoke f)
             | None => st1
             end in
  if inputRef st2 then st2 |> call Focus else st2.

(** [handleKeyDown], lines 366-403. *)
Definition handleKeyDown (st : Field) (event : KeyboardEvent) : Field :=
  if ctrlKey event && truthy (value st) && isDayjs (value st) then
    match value st with
    | Some v =>
        let stopped := st |> call PreventDefault |> call StopPropagation in
        let '(newDate, st1) :=
          if String.eqb (key event) "ArrowUp" then
            (Some (add v (JS.Finite 1) year_unit), stopped)
          else if String.eqb (key event) "ArrowDown" then
            (Some (subtract v (JS.Finite 1) year_unit), stopped)
          else if String.eqb (key event) "ArrowRight" then
            (Some (add v (JS.Finite 1) month), stopped)
          else if String.eqb (key event) "ArrowLeft" then
            (Some (subtract v (JS.Finite 1) month), stopped)
          else (None, st) in
        match newDate with
        | Some d =>
            st1 |> setShouldMaintainFocus true
                |> setValue (Some d)
                |> setInputValue (createInputValue (Some d) fieldFormat)
        | None => st1
        end
    | None => st
    end
  else st.

(** [customEndAdornment], lines 406-428: the buttons drawn, in order. *)
Definition customEndAdornment (st : Field) : list Button :=
  (if truthyFlag clearable && truthy (value st) then [ClearButton] else [])
  ++ [CalendarButton].

(** What pressing a drawn button does: [onMouseDown] of the clear button,
    [onClick] of the calendar button. *)
Definition activate (b : Button) (st : Field) : Field :=
  match b with
  | ClearButton => handleClearClick st
  | CalendarButton => setOpen true st
  end.

(** The props given to [TextField], lines 468-487. *)
Definition render (st : Field) : TextField :=
  {| tf_value := inputValue st;
     tf_error := hasValidationError st;
     tf_focused := pickerOpen st;
     tf_endAdornment := customEndAdornment st |}.

End CustomDateField.
End Doc2.

(** ** The rendering of a picker value, in the words of the specification

    The empty string when the value is null or invalid, and otherwise the
    value formatted with the given format string. *)

Module Spec.
Section Rendering.
Context {L : DayjsApi}.

Definition nullOrInvalid (value : option Dayjs) : bool :=
  match value with
  | None => true
  | Some v => negb (isValid v)
  end.

Definition rendering (value : option Dayjs) (fmt : string) : string :=
  if nullOrInvalid value then ""
  else match value with
       | Some v => format v fmt
       | None => ""
       end.

End Rendering.
End Spec.

(** ** A reference calendar

    A small implementation of the interface, on which the handlers can be
    run: proleptic Gregorian dates with a time of day, the format tokens
    YYYY, MM, DD, M and D, and a parser that rejects a month or a day out of
    range.  The clock reads 15 June 2025, 10:30. *)

Module Ref.

Inductive date : Type :=
| Invalid
| Date (y m d ms : Z).

Definition isLeap (y : Z) : bool :=
  ((y mod 4 =? 0) && negb (y mod 100 =? 0)) || (y mod 400 =? 0).

Definition daysInMonth (y m : Z) : Z :=
  if m =? 2 then (if isLeap y then 29 else 28)
  else if (m =? 4) || (m =? 6) || (m =? 9) || (m =? 11) then 30
  else 31.

(** Days from 1 January 1970 to the given civil date. *)
Definition daysFromCivil (y m d : Z) : Z :=
  let y' := if m <=? 2 then y - 1 else y in
  let era := y' / 400 in
  let yoe := y' - era * 400 in
  let mp := (m + 9) mod 12 in
  let doy := (153 * mp + 2) / 5 + d - 1 in
  let doe := yoe * 365 + yoe / 4 - yoe / 100 + doy in
  era * 146097 + doe - 719468.

(** The civil date that many days after 1 January 1970. *)
Definition civilFromDays (n : Z) : Z * Z * Z :=
  let z := n + 719468 in
  let era := z / 146097 in
  let doe := z - era * 146097 in
  let yoe := (doe - doe / 1460 + doe / 36524 - doe / 146096) / 365 in
  let doy := doe - (365 * yoe + yoe / 4 - yoe / 100) in
  let mp := (5 * doy + 2) / 153 in
  let d := doy - (153 * mp + 2) / 5 + 1 in
  let m := if mp <? 10 then mp + 3 else mp - 9 in
  let y := yoe + era * 400 in
  (if m <=? 2 then y + 1 else y, m, d).

(** A date is kept only within 100 000 000 days of 1 January 1970. *)
Definition inRange (y m d : Z) : bool :=
  let n := daysFromCivil y m d in
  (-100000000 <=? n) && (n <=? 100000000).

Definition mk (y m d ms : Z) : date :=
  if inRange y m d then Date y m d ms else Invalid.

Definition ref_isValid (x : date) : bool :=
  match x with
  | Invalid => false
  | Date _ _ _ _ => true
  end.

Definition shift (x : date) (n : Z) (u : ManipulateType) : date :=
  match x with
  | Invalid => Invalid
  | Date y m d ms =>
      match u with
      | day =>
          let '(y', m', d') := civilFromDays (daysFromCivil y m d + n) in
          mk y' m' d' ms
      | month =>
          let total := y * 12 + (m - 1) + n in
          let y' := total / 12 in
          let m' := total mod 12 + 1 in
          mk y' m' (Z.min d (daysInMonth y' m')) ms
      | year_unit =>
          mk (y + n) m (Z.min d (daysInMonth (y + n) m)) ms
      end
  end.

Definition ref_add (x : date) (n : JS.Number) (u : ManipulateType) : date :=
  match n with
  | JS.Finite z => shift x z u
  | _ => Invalid
  end.

Definition ref_subtract (x : date) (n : JS.Number) (u : ManipulateType) : date :=
  ref_add x (JS.negate n) u.

Definition ref_year (x : date) : option Z :=
  match x with
  | Invalid => None
  | Date y _ _ _ => Some y
  end.

Definition ref_isSame (x : date) (other : option date) : bool :=
  match x, other with
  | Date y m d ms, Some (Date y' m' d' ms') =>
      (y =? y') && (m =? m') && (d =? d') && (ms =? ms')
  | _, _ => false
  end.

Definition two (z : Z) : string := JS.padStart 2 "0" (JS.intToString z).
Definition four (z : Z) : string := JS.padStart 4 "0" (JS.intToString z).

Fixpoint formatFields (y m d : Z) (f : string) : string :=
  match f with
  | String "Y" (String "Y" (String "Y" (String "Y" r))) => four y ++ formatFields y m d r
  | String "M" (String "M" r) => two m ++ formatFields y m d r
  | String "D" (String "D" r) => two d ++ formatFields y m d r
  | String "M" r => JS.intToString m ++ formatFields y m d r
  | String "D" r => JS.intToString d ++ formatFields y m d r
  | String c r => String c (formatFields y m d r)
  | EmptyString => EmptyString
  end.

Definition ref_format (x : date) (f : string) : string :=
  match x with
  | Invalid => "Invalid Date"
  | Date y m d _ => formatFields y m d f
  end.

(** Reads exactly [k] digits. *)
Fixpoint readExactly (k : nat) (acc : Z) (s : string) : option (Z * string) :=
  match k with
  | O => Some (acc, s)
  | S k' =>
      match s with
      | String c r =>
          if JS.isDigit c then readExactly k' (10 * acc + JS.digitValue c) r
          else None
      | EmptyString => None
      end
  end.

(** Reads one digit, and a second one when there is one. *)
Definition readOneOrTwo (s : string) : option (Z * string) :=
  match s with
  | String c r =>
      if JS.isDigit c then
        match r with
        | String c' r' =>
            if JS.isDigit c' then Some (10 * JS.digitValue c + JS.digitValue c', r')
            else Some (JS.digitValue c, r)
        | EmptyString => Some (JS.digitValue c, r)
        end
      else None
  | EmptyString => None
  end.

Record fields : Type := { f_year : option Z; f_month : option Z; f_day : option Z }.

Fixpoint parseFields (f s : string) (acc : fields) : option fields :=
  match f with
  | String "Y" (String "Y" (String "Y" (String "Y" r))) =>
      match readExactly 4 0 s with
      | Some (y, s') => parseFields r s' {| f_year := Some y; f_month := f_month acc; f_day := f_day acc |}
      | None => None
      end
  | String "M" (String "M" r) | String "M" r =>
      match readOneOrTwo s with
      | Some (m, s') => parseFields r s' {| f_year := f_year acc; f_month := Some m; f_day := f_day acc |}
      | None => None
      end
  | String "D" (String "D" r) | String "D" r =>
      match readOneOrTwo s with
      | Some (d, s') => parseFields r s' {| f_year := f_year acc; f_month := f_month acc; f_day := Some d |}
      | None => None
      end
  | String c r =>
      match s with
      | String c' s' => if Ascii.eqb c c' then parseFields r s' acc else None
      | EmptyString => None
      end
  | EmptyString =>
      match s with
      | EmptyString => Some acc
      | String _ _ => None
      end
  end.

(** The clock. *)
Definition clock : date := Date 2025 6 15 37800000.

Definition ref_parse (s f : string) : date :=
  match parseFields f s {| f_year := None; f_month := None; f_day := None |} with
  | Some fs =>
      let y := match f_year fs with Some y => y | None => 2025 end in
      let m := match f_month fs with Some m => m | None => 1 end in
      let d := match f_day fs with Some d => d | None => 1 end in
      if (1 <=? m) && (m <=? 12) && (1 <=? d) && (d <=? daysInMonth y m)
      then mk y m d 0 else Invalid
  | None => Invalid
  end.

#[export] Instance api : DayjsApi := {
  Dayjs := date;
  dayjs_now := clock;
  dayjs_parse := ref_parse;
  isValid := ref_isValid;
  format := ref_format;
  add := ref_add;
  subtract := ref_subtract;
  year := ref_year;
  isSame := ref_isSame
}.

(** A validator that reports an Invalid Date and nothing else. *)
Definition validate (v : option date) : option string :=
  match v with
  | None => None
  | Some x => if ref_isValid x then None else Some "invalidDate"
  end.

(** An untouched field showing [text] over the picker value [v]. *)
Definition field (v : option date) (text : string) : Doc2.Field :=
  Doc2.mkField v false text v false true [].

End Ref.

(** ** The field of the first document (lines 25-123)

    The first document has no shorthand beyond "d", no keyboard shortcut
    and no refs; it parses on every keystroke. *)

Module Doc1Field.
Import Doc2.

#[local] Notation "st |> f" := (f st)
  (at level 55, left associativity, only parsing).

Section CustomDateField.
Context {L : DayjsApi}.

(** The state of one mounted field: the picker value and [open] flag, the
    two states of [useInputValue], and the calls made so far. *)
Record Field : Type := mkField {
  value : option Dayjs;
  pickerOpen : bool;
  inputValue : string;
  lastValueProp : option Dayjs;
  calls : list Call
}.

Definition setValue (v : option Dayjs) (st : Field) : Field :=
  mkField v (pickerOpen st) (inputValue st) (lastValueProp st) (calls st).

Definition setOpen (b : bool) (st : Field) : Field :=
  mkField (value st) b (inputValue st) (lastValueProp st) (calls st).

Definition setInputValue (s : string) (st : Field) : Field :=
  mkField (value st) (pickerOpen st) s (lastValueProp st) (calls st).

Definition setLastValueProp (v : option Dayjs) (st : Field) : Field :=
  mkField (value st) (pickerOpen st) (inputValue st) v (calls st).

Definition call (c : Call) (st : Field) : Field :=
  mkField (value st) (pickerOpen st) (inputValue st) (lastValueProp st)
          (calls st ++ [c]).

Variable fieldFormat : string.
Variable clearable : option bool.
Variable onClear : option Callback.
Variable onBlur : option Callback.

(** The effect of [useInputValue], lines 135-149. *)
Definition useInputValue_effect (st : Field) : Field :=
  if negb (isDayjs (value st))
     || negb (match value st with
              | Some v => isSame v (lastValueProp st)
              | None => false
              end)
     || (negb (truthy (lastValueProp st)) && truthy (value st))
     || (truthy (lastValueProp st) && negb (truthy (value st)))
  then st |> setLastValueProp (value st)
          |> setInputValue (Doc1.createInputValue (value st) fieldFormat)
  else st.

(** [handleChange], lines 48-57. *)
Definition handleChange (st : Field) (newInputValue : string) : Field :=
  let st1 := st |> setInputValue newInputValue in
  if negb (String.eqb (JS.toLowerCase newInputValue) "d") then
    let newValue := dayjs_parse newInputValue fieldFormat in
    st1 |> setValue (Some newValue)
  else st1.

(** [handleBlur], lines 59-75. *)
Definition handleBlur (st : Field) (event : FocusEvent) : Field :=
  let currentInput := target_value event in
  let handled :=
    if String.eqb (JS.toLowerCase currentInput) "d" then
      let today := dayjs_now in
      st |> setValue (Some today)
         |> setInputValue (Doc1.createInputValue (Some today) fieldFormat)
    else
      let newValue := dayjs_parse currentInput fieldFormat in
      st |> setValue (Some newValue)
  in
  match onBlur with
  | Some f => handled |> call (Invoke f)
  | None => handled
  end.

(** [handleClearClick], lines 77-82. *)
Definition handleClearClick (st : Field) : Field :=
  let st1 := st |> setValue None in
  match onClear with
  | Some f => st1 |> call (Invoke f)
  | None => st1
  end.

(** [customEndAdornment], lines 85-101.  The clear button is drawn with
    [<Close/>], a name the document neither imports nor defines (it imports
    [Clear]); evaluating it is a ReferenceError, [None]. *)
Definition customEndAdornment (st : Field) : option (list Button) :=
  if truthyFlag clearable && truthy (value st) then None
  else Some [CalendarButton].

End CustomDateField.

(** What the first document keeps of a state of the second. *)
Definition ofDoc2 {L : DayjsApi} (st : Doc2.Field) : Field :=
  mkField (Doc2.value st) (Doc2.pickerOpen st) (Doc2.inputValue st)
          (Doc2.lastValueProp st) (Doc2.calls st).

End Doc1Field.

(** ** The life of a field of the second document *)

Module Lifecycle.
Import Doc2.
Section Lifecycle.
Context {L : DayjsApi}.
Variable fieldFormat : string.

(** The field just mounted over the picker value [v]: the initial states
    of lines 495-500, the refs of lines 273-274 with the input attached, the
    picker closed, nothing called yet. *)
Definition mount (v : option Dayjs) : Field :=
  mkField v false (useInputValue_init fieldFormat v) v false true [].

(** The input shows the rendering of the picker value. *)
Definition inSync (st : Field) : Prop :=
  inputValue st = createInputValue (value st) fieldFormat.

(** The change events of the texts [texts], one after the other. *)
Definition typing (texts : list string) (st : Field) : Field :=
  fold_left handleChange texts st.

End Lifecycle.
End Lifecycle.

(** ** [CustomFieldDatePicker], the wrapper around the picker

    An object is known by its own properties; [{...a, ...b}] keeps the
    properties of [b] and those of [a] that [b] does not have. *)

Module Picker.











End Picker.

(** ** Shapes of text *)

Module Shape.

(** No code unit of [s] is white space. *)
Fixpoint noSpace (s : string) : bool :=
  match s with
  | EmptyString => true
  | String c r => negb (JS.isWhiteSpace c) && noSpace r
  end.

(** Every code unit of [s] is white space. *)
Fixpoint allSpace (s : string) : bool :=
  match s with
  | EmptyString => true
  | String c r => JS.isWhiteSpace c && allSpace r
  end.

(** [s] is one of the shorthands for a date counted from today: "d", or
    the letter of a unit followed by one digit or more. *)
Definition isShorthand (s : string) : Prop :=
  s = "d"
  \/ exists u ds, s = String (Doc2.shorthandLetter u) ds
                  /\ JS.allDigits ds = true /\ ds <> EmptyString.

(** The pattern the blur handler tests for a unit. *)
Definition patternOf (u : ManipulateType) : JS.regex :=
  match u with
  | day => Doc2.re_days
  | month => Doc2.re_months
  | year_unit => Doc2.re_years
  end.

End Shape.

(** * Properties *)

(** ** Matching by derivatives decides the language *)

Module JSFacts.
Import JS.

Lemma append_nil_both (s1 s2 : string) :
  s1 ++ s2 = EmptyString -> s1 = EmptyString /\ s2 = EmptyString.
Proof.
  destruct s1 as [|c s1]; simpl; intro H.
  - now split.
  - discriminate H.
Qed.

Lemma append_cons_split (s1 s2 : string) (a : ascii) (s : string) :
  s1 ++ s2 = String a s ->
  (s1 = EmptyString /\ s2 = String a s)
  \/ (exists s1', s1 = String a s1' /\ s = s1' ++ s2).
Proof.
  destruct s1 as [|c s1]; simpl; intro H.
  - left. now split.
  - right. injection H as -> <-. now exists s1.
Qed.

Lemma nullable_sound (r : regex) : nullable r = true -> lang r EmptyString.
Proof.
  induction r; simpl; intro H; try discriminate H.
  - constructor.
  - apply andb_true_iff in H as [H1 H2].
    change EmptyString with (EmptyString ++ EmptyString).
    constructor; auto.
  - apply orb_true_iff in H as [H|H].
    + apply lang_alt_l; auto.
    + apply lang_alt_r; auto.
  - constructor.
Qed.

Lemma nullable_complete (r : regex) (s : string) :
  lang r s -> s = EmptyString -> nullable r = true.
Proof.
  induction 1; simpl; intro E; try discriminate E; try reflexivity.
  - apply append_nil_both in E as [E1 E2].
    rewrite IHlang1, IHlang2 by assumption. reflexivity.
  - rewrite IHlang by assumption. reflexivity.
  - rewrite IHlang by assumption. apply orb_true_r.
Qed.

Lemma deriv_sound (a : ascii) (r : regex) :
  forall s, lang (deriv a r) s -> lang r (String a s).
Proof.
  induction r; simpl; intros s H.
  - inversion H.
  - inversion H.
  - destruct (Ascii.eqb a c) eqn:E.
    + apply Ascii.eqb_eq in E. subst c. inversion H. constructor.
    + inversion H.
  - destruct (isDigit a) eqn:E.
    + inversion H. now constructor.
    + inversion H.
  - assert (C : forall w, lang (Cat (deriv a r1) r2) w -> lang (Cat r1 r2) (String a w)).
    { intros w Hw. inversion Hw; subst.
      change (String a (s1 ++ s2)) with (String a s1 ++ s2).
      constructor; auto. }
    destruct (nullable r1) eqn:N.
    + inversion H; subst.
      * now apply C.
      * change (String a s) with (EmptyString ++ String a s).
        constructor; auto using nullable_sound.
    + now apply C.
  - inversion H; subst.
    + apply lang_alt_l; auto.
    + apply lang_alt_r; auto.
  - inversion H; subst.
    change (String a (s1 ++ s2)) with (String a s1 ++ s2).
    apply lang_star_cons; auto.
Qed.

Lemma deriv_complete (r : regex) (w : string) :
  lang r w -> forall a t, w = String a t -> lang (deriv a r) t.
Proof.
  induction 1; intros a t E; simpl; try discriminate E.
  - injection E as -> <-. rewrite Ascii.eqb_refl. constructor.
  - injection E as -> <-. rewrite H. constructor.
  - apply append_cons_split in E as [[E1 E2] | [s1' [E1 E2]]].
    + subst s1. rewrite (nullable_complete H eq_refl).
      apply lang_alt_r. now apply IHlang2.
    + assert (C : lang (Cat (deriv a r1) r2) t).
      { subst t. constructor; auto. }
      destruct (nullable r1); [now apply lang_alt_l | exact C].
  - apply lang_alt_l. now apply IHlang.
  - apply lang_alt_r. now apply IHlang.
  - apply append_cons_split in E as [[E1 E2] | [s1' [E1 E2]]].
    + now apply IHlang2.
    + subst t. constructor; auto.
Qed.

Lemma test_lang (s : string) : forall r, test r s = true <-> lang r s.
Proof.
  induction s as [|a s IH]; intro r; simpl.
  - split; [apply nullable_sound | intro H; exact (nullable_complete H eq_refl)].
  - rewrite IH. split; [apply deriv_sound | intro H; exact (deriv_complete H eq_refl)].
Qed.

(** ** What the four patterns accept *)

(** Takes apart the hypotheses on the language of a pattern that is not a
    star. *)
Ltac lang_inv :=
  repeat match goal with
         | H : lang (Cat _ _) _ |- _ => inversion H; subst; clear H
         | H : lang (Alt _ _) _ |- _ => inversion H; subst; clear H
         | H : lang (Chr _) _ |- _ => inversion H; subst; clear H
         | H : lang Digit _ |- _ => inversion H; subst; clear H
         | H : lang Eps _ |- _ => inversion H; subst; clear H
         | H : lang Void _ |- _ => inversion H
         end.

Lemma star_digit_sound (r : regex) (s : string) :
  lang r s -> r = Star Digit -> allDigits s = true.
Proof.
  induction 1; intro E; try discriminate E.
  - reflexivity.
  - injection E as ->. lang_inv.
    simpl. rewrite IHlang2 by reflexivity.
    now rewrite andb_true_r.
Qed.

Lemma star_digit_complete (s : string) :
  allDigits s = true -> lang (Star Digit) s.
Proof.
  induction s as [|c s IH]; simpl; intro H.
  - constructor.
  - apply andb_true_iff in H as [Hc Hs].
    change (String c s) with (String c EmptyString ++ s).
    apply lang_star_cons; [now constructor | auto].
Qed.

Lemma plus_digit_lang (s : string) :
  lang (Plus Digit) s <-> allDigits s = true /\ s <> EmptyString.
Proof.
  split.
  - intro H. unfold Plus in H.
    inversion H as [| | | r1 r2 s1 s2 H1 H2 | | | |]; subst; clear H.
    lang_inv. simpl. split; [| discriminate].
    rewrite (star_digit_sound H2 eq_refl). now rewrite andb_true_r.
  - intros [H N]. destruct s as [|c s]; [now elim N |].
    simpl in H. apply andb_true_iff in H as [Hc Hs].
    change (String c s) with (String c EmptyString ++ s).
    constructor; [now constructor | now apply star_digit_complete].
Qed.

(** [/^c\d+$/] accepts the letter [c] followed by one digit or more. *)
Lemma test_letter_digits (c : ascii) (s : string) :
  test (Cat (Chr c) (Plus Digit)) s = true
  <-> exists ds, s = String c ds /\ allDigits ds = true /\ ds <> EmptyString.
Proof.
  rewrite test_lang. split.
  - intro H.
    inversion H as [| | | r1 r2 s1 s2 H1 H2 | | | |]; subst; clear H.
    apply plus_digit_lang in H2 as [Hd Hn].
    lang_inv. exists s2. now repeat split.
  - intros [ds [-> [Hd Hn]]].
    change (String c ds) with (String c EmptyString ++ ds).
    constructor; [constructor | now apply plus_digit_lang].
Qed.

Lemma oneOrTwo_lang (s : string) :
  lang (OneOrTwo Digit) s <-> oneOrTwoDigits s = true.
Proof.
  unfold oneOrTwoDigits, OneOrTwo. split.
  - intro H. lang_inv; simpl;
      repeat match goal with E : isDigit _ = true |- _ => rewrite E; clear E end;
      reflexivity.
  - intro H. destruct s as [|c [|c' [|c'' s]]]; simpl in H.
    + discriminate H.
    + repeat rewrite andb_true_r in H.
      change (String c EmptyString) with (String c EmptyString ++ EmptyString).
      constructor; [now constructor | apply lang_alt_l; constructor].
    + repeat rewrite andb_true_r in H. apply andb_true_iff in H as [Hc Hc'].
      change (String c (String c' EmptyString))
        with (String c EmptyString ++ String c' EmptyString).
      constructor; [now constructor | apply lang_alt_r; now constructor].
    + rewrite andb_false_r in H. discriminate H.
Qed.

(** [/^\d{1,2}\/\d{1,2}$/] accepts one or two digits, a slash, and one or
    two digits. *)
Lemma test_shortDate (s : string) :
  test Doc2.re_shortDate s = true
  <-> exists m d, s = m ++ String "/" d
                  /\ oneOrTwoDigits m = true /\ oneOrTwoDigits d = true.
Proof.
  rewrite test_lang. unfold Doc2.re_shortDate. split.
  - intro H.
    inversion H as [| | | r1 r2 m rest Hm Hrest | | | |]; subst; clear H.
    inversion Hrest as [| | | r1 r2 sl d Hsl Hd | | | |]; subst; clear Hrest.
    apply oneOrTwo_lang in Hm. apply oneOrTwo_lang in Hd.
    lang_inv. exists m, d. now repeat split.
  - intros [m [d [-> [Hm Hd]]]].
    constructor; [now apply oneOrTwo_lang |].
    change (String "/" d) with (String "/" EmptyString ++ d).
    constructor; [constructor | now apply oneOrTwo_lang].
Qed.

(** A pattern that starts with a letter rejects a string that starts with
    another character. *)
Lemma test_other_first (c a : ascii) (r : regex) (s : string) :
  Ascii.eqb a c = false -> test (Cat (Chr c) r) (String a s) = false.
Proof.
  intro E. simpl. rewrite E.
  destruct (test (Cat Void r) s) eqn:T; [| reflexivity].
  apply test_lang in T. lang_inv.
Qed.

(** ** Digits under the string built-ins *)

Lemma isDigit_cases (c : ascii) :
  isDigit c = true ->
  In c ["0"; "1"; "2"; "3"; "4"; "5"; "6"; "7"; "8"; "9"]%char.
Proof.
  destruct c as [[] [] [] [] [] [] [] []]; intro H;
    solve [discriminate H | simpl; tauto].
Qed.

(** Runs a goal on each of the ten digits. *)
Ltac each_digit H :=
  apply isDigit_cases in H; simpl in H;
  repeat (destruct H as [H|H]; [subst; try reflexivity |]); try contradiction.

Lemma digit_lower (c : ascii) : isDigit c = true -> lowerChar c = c.
Proof. intro H. each_digit H. Qed.

Lemma digit_not_space (c : ascii) : isDigit c = true -> isWhiteSpace c = false.
Proof. intro H. each_digit H. Qed.

Lemma digit_not_char (c x : ascii) :
  isDigit c = true -> isDigit x = false -> Ascii.eqb c x = false.
Proof.
  intros H N. destruct (Ascii.eqb c x) eqn:E; [| reflexivity].
  apply Ascii.eqb_eq in E. subst x. congruence.
Qed.

Lemma toLowerCase_app (s1 s2 : string) :
  toLowerCase (s1 ++ s2) = toLowerCase s1 ++ toLowerCase s2.
Proof.
  induction s1 as [|c s1 IH]; simpl; [reflexivity | now rewrite IH].
Qed.

Lemma toLowerCase_digits (s : string) :
  allDigits s = true -> toLowerCase s = s.
Proof.
  induction s as [|c s IH]; simpl; intro H; [reflexivity |].
  apply andb_true_iff in H as [Hc Hs].
  now rewrite (digit_lower _ Hc), IH.
Qed.

Lemma oneOrTwo_allDigits (s : string) :
  oneOrTwoDigits s = true -> allDigits s = true.
Proof.
  unfold oneOrTwoDigits. intro H.
  apply andb_true_iff in H as [H _]. now apply andb_true_iff in H as [H _].
Qed.

Lemma oneOrTwo_first (s : string) :
  oneOrTwoDigits s = true ->
  exists c r, s = String c r /\ isDigit c = true.
Proof.
  intro H. pose proof (oneOrTwo_allDigits _ H) as D.
  destruct s as [|c r]; [discriminate H |].
  simpl in D. apply andb_true_iff in D as [Hc _]. eauto.
Qed.

Lemma split_digits (sep : ascii) (s : string) :
  isDigit sep = false -> allDigits s = true -> split sep s = [s].
Proof.
  intro N. induction s as [|c s IH]; simpl; intro H; [reflexivity |].
  apply andb_true_iff in H as [Hc Hs].
  now rewrite (digit_not_char _ _ Hc N), IH.
Qed.

Lemma split_digits_sep (sep : ascii) (s1 s2 : string) :
  isDigit sep = false -> allDigits s1 = true ->
  split sep (s1 ++ String sep s2) = s1 :: split sep s2.
Proof.
  intro N. induction s1 as [|c s1 IH]; simpl; intro H.
  - now rewrite Ascii.eqb_refl.
  - apply andb_true_iff in H as [Hc Hs].
    now rewrite (digit_not_char _ _ Hc N), IH.
Qed.

Lemma digitPrefix_digits (s : string) :
  allDigits s = true -> digitPrefix s = s.
Proof.
  induction s as [|c s IH]; simpl; intro H; [reflexivity |].
  apply andb_true_iff in H as [Hc Hs].
  now rewrite Hc, IH.
Qed.

(** On a run of digits [parseInt] returns the double nearest to the integer
    the digits denote. *)
Lemma parseInt10_digits (ds : string) :
  allDigits ds = true -> ds <> EmptyString ->
  parseInt10 ds = roundToDouble (digitsValue 0 ds).
Proof.
  intros H N. destruct ds as [|c r]; [now elim N |].
  pose proof H as H'. simpl in H'. apply andb_true_iff in H' as [Hc Hr].
  unfold parseInt10. simpl trimStart. rewrite (digit_not_space _ Hc).
  rewrite (digit_not_char c "-" Hc eq_refl), (digit_not_char c "+" Hc eq_refl).
  now rewrite (digitPrefix_digits _ H).
Qed.

(** ** Decimal writing *)

Lemma string_of_uint_digits (d : Decimal.uint) :
  allDigits (NilEmpty.string_of_uint d) = true.
Proof. induction d; simpl; auto. Qed.

Lemma digitsValue_revapp (d : Decimal.uint) :
  forall d', digitsValue (Z.of_N (Unsigned.of_lu d')) (NilEmpty.string_of_uint d)
             = Z.of_N (Unsigned.of_lu (Decimal.revapp d d')).
Proof.
  induction d; intro d'; cbn [Decimal.revapp NilEmpty.string_of_uint digitsValue];
    [reflexivity | ..];
    rewrite <- IHd; f_equal;
    match goal with
    | |- _ = Z.of_N (Unsigned.of_lu ?x) =>
        rewrite (Unsigned.of_lu_eqn x); simpl Unsigned.hd; simpl Unsigned.tl
    end;
    match goal with
    | |- context [digitValue ?c] =>
        let v := eval vm_compute in (digitValue c) in
        change (digitValue c) with v
    end;
    lia.
Qed.

Lemma decimal_value (n : N) : digitsValue 0 (decimal n) = Z.of_N n.
Proof.
  unfold decimal.
  change 0 with (Z.of_N (Unsigned.of_lu Decimal.Nil)).
  rewrite digitsValue_revapp.
  change (Decimal.revapp (N.to_uint n) Decimal.Nil) with (Decimal.rev (N.to_uint n)).
  rewrite <- Unsigned.of_uint_alt.
  change (Pos.of_uint (N.to_uint n)) with (N.of_uint (N.to_uint n)).
  now rewrite DecimalN.Unsigned.of_to.
Qed.

Lemma decimal_digits (n : N) : allDigits (decimal n) = true.
Proof. apply string_of_uint_digits. Qed.

Lemma decimal_nonempty (n : N) : decimal n <> EmptyString.
Proof.
  unfold decimal. destruct n as [|p]; [discriminate |].
  simpl. pose proof (Unsigned.to_uint_nonnil p) as H.
  destruct (Pos.to_uint p); [now elim H | discriminate ..].
Qed.

(** [parseInt] reads a natural number back from its decimal writing. *)
Lemma parseInt10_decimal (n : N) : parseInt10 (decimal n) = numberOf n.
Proof.
  rewrite parseInt10_digits by (apply decimal_digits || apply decimal_nonempty).
  unfold numberOf. now rewrite decimal_value.
Qed.

(** Below 2^53 the double is the number itself. *)
Lemma numberOf_exact (n : N) : (n < 2 ^ 53)%N -> numberOf n = Finite (Z.of_N n).
Proof.
  intro H. unfold numberOf, roundToDouble.
  assert (E : (Z.of_N n <? 2 ^ 53) = true) by (apply Z.ltb_lt; lia).
  now rewrite E.
Qed.

End JSFacts.

(** ** The blur handler *)

Section Blur.
Import JS JSFacts Doc2.
Context {L : DayjsApi}.
Variable fieldFormat : string.
Variable onBlur : option Callback.

Lemma forwardBlur_value (st : Field) : value (forwardBlur onBlur st) = value st.
Proof. unfold forwardBlur. now destruct onBlur. Qed.

Lemma forwardBlur_inputValue (st : Field) :
  inputValue (forwardBlur onBlur st) = inputValue st.
Proof. unfold forwardBlur. now destruct onBlur. Qed.

(** A valid date is rendered by formatting it. *)
Lemma createInputValue_valid (v : Dayjs) (fmt : string) :
  isValid v = true -> createInputValue (Some v) fmt = format v fmt.
Proof. intro H. simpl. now rewrite H. Qed.

(** The state a handler leaves when it stores [v] and shows its rendering. *)
#[local] Abbreviation shows v st :=
  (setInputValue (createInputValue (Some v) fieldFormat) (setValue (Some v) st)).

Lemma shows_spec (v : Dayjs) (st : Field) :
  value (forwardBlur onBlur (shows v st)) = Some v
  /\ inputValue (forwardBlur onBlur (shows v st))
     = createInputValue (Some v) fieldFormat.
Proof. now rewrite forwardBlur_value, forwardBlur_inputValue. Qed.

Lemma blur_today_run (st : Field) (ev : FocusEvent) :
  toLowerCase (trim (target_value ev)) = "d" ->
  handleBlur fieldFormat onBlur st ev
  = Some (forwardBlur onBlur (shows dayjs_now st)).
Proof.
  intro H. unfold handleBlur. cbv zeta. rewrite H. reflexivity.
Qed.

Lemma blur_add_run (u : ManipulateType) (ds : string) (st : Field) (ev : FocusEvent) :
  allDigits ds = true -> ds <> EmptyString ->
  toLowerCase (trim (target_value ev)) = String (shorthandLetter u) ds ->
  handleBlur fieldFormat onBlur st ev
  = Some (forwardBlur onBlur
            (shows (add dayjs_now (roundToDouble (digitsValue 0 ds)) u) st)).
Proof.
  intros Hd Hn H. unfold handleBlur. cbv zeta. rewrite H.
  assert (E : String.eqb (String (shorthandLetter u) ds) "d" = false).
  { destruct ds as [|c r]; [now elim Hn |]. simpl.
    now destruct (Ascii.eqb (shorthandLetter u) "d"). }
  rewrite E.
  assert (T : forall c, test (Cat (Chr c) (Plus Digit)) (String c ds) = true).
  { intro c. apply test_letter_digits. exists ds. now repeat split. }
  unfold addFromToday. cbn [substring].
  rewrite (parseInt10_digits Hd Hn).
  destruct u; cbn [shorthandLetter]; unfold re_days, re_months, re_years.
  - now rewrite T.
  - rewrite (test_other_first "d" "m" _ _ eq_refl). now rewrite T.
  - rewrite (test_other_first "d" "y" _ _ eq_refl).
    rewrite (test_other_first "m" "y" _ _ eq_refl). now rewrite T.
Qed.

Lemma blur_shortDate_run (m d : string) (st : Field) (ev : FocusEvent) :
  oneOrTwoDigits m = true -> oneOrTwoDigits d = true ->
  trim (target_value ev) = m ++ "/" ++ d ->
  handleBlur fieldFormat onBlur st ev
  = Some (forwardBlur onBlur
            (let newDate := dayjs_parse (shortDateText m d) "MM/DD/YYYY" in
             if isValid newDate then shows newDate st else st)).
Proof.
  intros Hm Hd H. unfold handleBlur. cbv zeta. rewrite H.
  pose proof (oneOrTwo_allDigits _ Hm) as Dm.
  pose proof (oneOrTwo_allDigits _ Hd) as Dd.
  assert (Lw : toLowerCase (m ++ "/" ++ d) = m ++ "/" ++ d).
  { rewrite toLowerCase_app. cbn [append toLowerCase].
    now rewrite (toLowerCase_digits _ Dm), (toLowerCase_digits _ Dd). }
  rewrite Lw.
  assert (T : test re_shortDate (m ++ "/" ++ d) = true).
  { apply test_shortDate. exists m, d. now repeat split. }
  assert (S : split "/" (m ++ "/" ++ d) = [m; d]).
  { cbn [append]. rewrite (split_digits_sep "/" m d eq_refl Dm).
    now rewrite (split_digits "/" d eq_refl Dd). }
  destruct (oneOrTwo_first _ Hm) as [c [r [-> Hc]]].
  cbn [append] in *.
  assert (E : String.eqb (String c (r ++ String "/" d)) "d" = false).
  { simpl. now rewrite (digit_not_char c "d" Hc eq_refl). }
  rewrite E. unfold re_days, re_months, re_years.
  rewrite (test_other_first "d" c _ _ (digit_not_char c "d" Hc eq_refl)).
  rewrite (test_other_first "m" c _ _ (digit_not_char c "m" Hc eq_refl)).
  rewrite (test_other_first "y" c _ _ (digit_not_char c "y" Hc eq_refl)).
  rewrite T, S. now destruct (isValid _).
Qed.

Lemma blur_fallback_run (st : Field) (ev : FocusEvent) :
  String.eqb (toLowerCase (trim (target_value ev))) "d" = false ->
  test re_days (toLowerCase (trim (target_value ev))) = false ->
  test re_months (toLowerCase (trim (target_value ev))) = false ->
  test re_years (toLowerCase (trim (target_value ev))) = false ->
  test re_shortDate (trim (target_value ev)) = false ->
  handleBlur fieldFormat onBlur st ev
  = Some (forwardBlur onBlur
            (setValue (Some (dayjs_parse (trim (target_value ev)) fieldFormat)) st)).
Proof.
  intros E1 E2 E3 E4 E5. unfold handleBlur. cbv zeta.
  now rewrite E1, E2, E3, E4, E5.
Qed.

(** C1.  On a blur whose trimmed, lowercased text is exactly "d", the
    handler sets the picker value to the current date and the input text to
    the rendering of that date in the field format, which is the date
    formatted with the field format since the current date is valid. *)
Theorem blur_d_sets_today (st : Field) (ev : FocusEvent) :
  toLowerCase (trim (target_value ev)) = "d" ->
  exists st',
    handleBlur fieldFormat onBlur st ev = Some st'
    /\ value st' = Some dayjs_now
    /\ inputValue st' = createInputValue (Some dayjs_now) fieldFormat
    /\ (isValid dayjs_now = true -> inputValue st' = format dayjs_now fieldFormat).
Proof.
  intro H. rewrite (@blur_today_run st ev H).
  eexists. split; [reflexivity |].
  destruct (shows_spec dayjs_now st) as [Hv Hi].
  repeat split; try assumption.
  intro V. now rewrite Hi, createInputValue_valid.
Qed.


(** C3.  A blur on one or two digits, a slash and one or two digits reads
    month/day: both parts are padded with zeros on the left to two digits,
    the current year is appended, and the text is parsed with MM/DD/YYYY;
    when the date is valid it becomes the picker value and the input text
    becomes its rendering in the field format. *)
Theorem blur_short_date_valid (m d : string) (st : Field) (ev : FocusEvent) :
  oneOrTwoDigits m = true -> oneOrTwoDigits d = true ->
  trim (target_value ev) = m ++ "/" ++ d ->
  isValid (dayjs_parse (shortDateText m d) "MM/DD/YYYY") = true ->
  String.length (padStart 2 "0" m) = 2%nat
  /\ String.length (padStart 2 "0" d) = 2%nat
  /\ shortDateText m d
     = padStart 2 "0" m ++ "/" ++ padStart 2 "0" d
       ++ "/" ++ yearToString (year dayjs_now)
  /\ exists st',
       handleBlur fieldFormat onBlur st ev = Some st'
       /\ value st' = Some (dayjs_parse (shortDateText m d) "MM/DD/YYYY")
       /\ inputValue st'
          = format (dayjs_parse (shortDateText m d) "MM/DD/YYYY") fieldFormat.
Proof.
  intros Hm Hd H V.
  assert (P : forall x, oneOrTwoDigits x = true ->
                        String.length (padStart 2 "0" x) = 2%nat).
  { intros x Hx. unfold oneOrTwoDigits in Hx.
    destruct x as [|a [|b [|c r]]]; simpl in Hx;
      rewrite ?andb_false_r in Hx; try discriminate Hx; reflexivity. }
  split; [now apply P |]. split; [now apply P |]. split; [reflexivity |].
  rewrite (@blur_shortDate_run m d st ev Hm Hd H). cbv zeta. rewrite V.
  eexists. split; [reflexivity |].
  rewrite <- (@createInputValue_valid _ fieldFormat V). apply shows_spec.
Qed.

(** What a blur leaves behind, branch by branch. *)
Lemma blur_branches (st : Field) (ev : FocusEvent) :
  exists st',
    handleBlur fieldFormat onBlur st ev = Some st'
    /\ let cur := trim (target_value ev) in
       let lower := toLowerCase cur in
       if String.eqb lower "d" || test re_days lower
          || test re_months lower || test re_years lower
       then inputValue st' = createInputValue (value st') fieldFormat
       else if test re_shortDate cur
       then (inputValue st' = createInputValue (value st') fieldFormat
             /\ exists v, value st' = Some v /\ isValid v = true)
            \/ (value st' = value st /\ inputValue st' = inputValue st)
       else value st' = Some (dayjs_parse cur fieldFormat)
            /\ inputValue st' = inputValue st.
Proof.
  cbv zeta.
  destruct (String.eqb (toLowerCase (trim (target_value ev))) "d") eqn:E1.
  { apply String.eqb_eq in E1. rewrite (@blur_today_run st ev E1).
    eexists. split; [reflexivity |]. cbn [orb].
    destruct (shows_spec dayjs_now st) as [Hv Hi]. now rewrite Hv, Hi. }
  assert (A : forall u ds,
             toLowerCase (trim (target_value ev)) = String (shorthandLetter u) ds
             /\ allDigits ds = true /\ ds <> EmptyString ->
             exists st', handleBlur fieldFormat onBlur st ev = Some st'
                         /\ inputValue st' = createInputValue (value st') fieldFormat).
  { intros u ds [Hs [Hd Hn]]. rewrite (@blur_add_run u ds st ev Hd Hn Hs).
    eexists. split; [reflexivity |].
    destruct (shows_spec (add dayjs_now (roundToDouble (digitsValue 0 ds)) u) st)
      as [Hv Hi].
    now rewrite Hv, Hi. }
  destruct (test re_days (toLowerCase (trim (target_value ev)))) eqn:E2.
  { apply test_letter_digits in E2 as [ds E2]. exact (A day ds E2). }
  destruct (test re_months (toLowerCase (trim (target_value ev)))) eqn:E3.
  { apply test_letter_digits in E3 as [ds E3]. exact (A month ds E3). }
  destruct (test re_years (toLowerCase (trim (target_value ev)))) eqn:E4.
  { apply test_letter_digits in E4 as [ds E4]. exact (A year_unit ds E4). }
  cbn [orb].
  destruct (test re_shortDate (trim (target_value ev))) eqn:E5.
  - apply test_shortDate in E5 as [m [d [Hs [Hm Hd]]]].
    rewrite (@blur_shortDate_run m d st ev Hm Hd Hs). cbv zeta.
    destruct (isValid (dayjs_parse (shortDateText m d) "MM/DD/YYYY")) eqn:V;
      eexists; (split; [reflexivity |]).
    + left.
      destruct (shows_spec (dayjs_parse (shortDateText m d) "MM/DD/YYYY") st)
        as [Hv Hi].
      rewrite Hv, Hi. split; [reflexivity |]. eauto.
    + right. now rewrite forwardBlur_value, forwardBlur_inputValue.
  - rewrite (@blur_fallback_run st ev E1 E2 E3 E4 E5).
    eexists. split; [reflexivity |].
    now rewrite forwardBlur_value, forwardBlur_inputValue.
Qed.


(** The handler never throws. *)
Corollary handleBlur_total (st : Field) (ev : FocusEvent) :
  handleBlur fieldFormat onBlur st ev <> None.
Proof.
  destruct (blur_branches st ev) as [st' [H _]].
  rewrite H. discriminate.
Qed.


Variable clearable : option bool.
Variable validateDate : option Dayjs -> option string.

(** C5.  Text that matches none of the shorthand patterns is parsed against
    the field format and the result is stored as the picker value, valid or
    not; with a validator that reports an Invalid Date, as the picker's
    does, an invalid stored value sets the error prop of the text field. *)
Theorem blur_fallback_stores_parse (st : Field) (ev : FocusEvent) :
  toLowerCase (trim (target_value ev)) <> "d" ->
  test re_days (toLowerCase (trim (target_value ev))) = false ->
  test re_months (toLowerCase (trim (target_value ev))) = false ->
  test re_years (toLowerCase (trim (target_value ev))) = false ->
  test re_shortDate (trim (target_value ev)) = false ->
  (forall v, isValid v = false -> validateDate (Some v) <> None) ->
  exists st',
    handleBlur fieldFormat onBlur st ev = Some st'
    /\ value st' = Some (dayjs_parse (trim (target_value ev)) fieldFormat)
    /\ (isValid (dayjs_parse (trim (target_value ev)) fieldFormat) = false ->
        hasValidationError validateDate st' = true
        /\ tf_error (render clearable validateDate st') = true).
Proof.
  intros N E2 E3 E4 E5 Hval.
  assert (E1 : String.eqb (toLowerCase (trim (target_value ev))) "d" = false).
  { destruct (String.eqb_spec (toLowerCase (trim (target_value ev))) "d");
      [contradiction | reflexivity]. }
  rewrite (@blur_fallback_run st ev E1 E2 E3 E4 E5).
  eexists. split; [reflexivity |].
  unfold render, hasValidationError. cbn [tf_error].
  rewrite forwardBlur_value. cbn [value setValue].
  split; [reflexivity |]. intro V.
  specialize (Hval _ V).
  destruct (validateDate (Some (dayjs_parse (trim (target_value ev)) fieldFormat)));
    [now split | now elim Hval].
Qed.

End Blur.

(** ** The effect of [useInputValue] *)

Section Effect.
Import Doc2.
Context {L : DayjsApi}.
Variable fieldFormat : string.

(** The effect never touches the picker value; it either shows the
    rendering of the value, or finds the value the same as the one it last
    rendered and leaves the text alone. *)
Lemma useInputValue_effect_cases (st : Field) :
  value (useInputValue_effect fieldFormat st) = value st
  /\ (inputValue (useInputValue_effect fieldFormat st)
      = createInputValue (value st) fieldFormat
      \/ (inputValue (useInputValue_effect fieldFormat st) = inputValue st
          /\ exists v, value st = Some v /\ isSame v (lastValueProp st) = true)).
Proof.
  unfold useInputValue_effect.
  destruct (value st) as [v|] eqn:Hv; cbn [isDayjs truthy negb orb andb].
  - destruct (isSame v (lastValueProp st)) eqn:S; cbn [negb orb].
    + destruct (lastValueProp st); cbn [truthy negb andb orb].
      * split; [assumption |]. right. split; [reflexivity |]. eauto.
      * cbn. split; [assumption |]. now left.
    + cbn. split; [assumption |]. now left.
  - cbn. split; [assumption |]. now left.
Qed.

End Effect.

(** ** The key-down handler *)

Section KeyDown.
Import JS Doc2.
Context {L : DayjsApi}.
Variable fieldFormat : string.

(** What Ctrl and an arrow key leave when the picker holds [v] and the
    nudged date is [v']. *)
Lemma keydown_run (st : Field) (ev : KeyboardEvent) (v : Dayjs) :
  ctrlKey ev = true -> value st = Some v ->
  forall v',
    (if String.eqb (key ev) "ArrowUp" then Some (add v (Finite 1) year_unit)
     else if String.eqb (key ev) "ArrowDown" then Some (subtract v (Finite 1) year_unit)
     else if String.eqb (key ev) "ArrowRight" then Some (add v (Finite 1) month)
     else if String.eqb (key ev) "ArrowLeft" then Some (subtract v (Finite 1) month)
     else None) = Some v' ->
    value (handleKeyDown fieldFormat st ev) = Some v'
    /\ inputValue (handleKeyDown fieldFormat st ev)
       = createInputValue (Some v') fieldFormat.
Proof.
  intros Hc Hv v' Hk. unfold handleKeyDown. rewrite Hc, Hv. cbn [truthy isDayjs andb].
  destruct (String.eqb (key ev) "ArrowUp");
    [| destruct (String.eqb (key ev) "ArrowDown");
       [| destruct (String.eqb (key ev) "ArrowRight");
          [| destruct (String.eqb (key ev) "ArrowLeft")]]];
    try discriminate Hk; injection Hk as <-; now split.
Qed.

(** C7.  With Ctrl held and a date in the picker, ArrowUp adds a year,
    ArrowDown subtracts one, ArrowRight adds a month and ArrowLeft subtracts
    one; the picker value becomes the nudged date and the input text its
    rendering in the field format.  That the date be valid is not needed. *)
Theorem keydown_ctrl_arrow_nudges (st : Field) (ev : KeyboardEvent) (v : Dayjs) :
  ctrlKey ev = true -> value st = Some v ->
  let st' := handleKeyDown fieldFormat st ev in
  let sets (v' : Dayjs) :=
    value st' = Some v'
    /\ inputValue st' = createInputValue (Some v') fieldFormat in
  (key ev = "ArrowUp" -> sets (add v (Finite 1) year_unit))
  /\ (key ev = "ArrowDown" -> sets (subtract v (Finite 1) year_unit))
  /\ (key ev = "ArrowRight" -> sets (add v (Finite 1) month))
  /\ (key ev = "ArrowLeft" -> sets (subtract v (Finite 1) month)).
Proof.
  intros Hc Hv. cbv zeta.
  split; [| split; [| split]]; intro K;
    apply (@keydown_run st ev v Hc Hv); rewrite K; reflexivity.
Qed.


End KeyDown.

(** ** The clear button *)

Section Clear.
Import Doc2.
Context {L : DayjsApi}.
Variable clearable : option bool.
Variable onClear : option Callback.

(** C9.  Pressing the clear button sets the picker value to null and the
    input text to the empty string, and calls [onClear] once when it was
    supplied and not at all otherwise; the button is drawn exactly when
    [clearable] is set and the picker value is not null. *)
Theorem clear_button_clears (st : Field) :
  value (activate onClear ClearButton st) = None
  /\ inputValue (activate onClear ClearButton st) = ""
  /\ calls (activate onClear ClearButton st)
     = (calls st ++ [PreventDefault]
        ++ match onClear with
           | Some f => [Invoke f]
           | None => []
           end
        ++ (if inputRef st then [Focus] else []))%list
  /\ (In ClearButton (customEndAdornment clearable st)
      <-> clearable = Some true /\ value st <> None).
Proof.
  unfold activate, handleClearClick. cbv zeta.
  split; [| split; [| split]].
  - destruct onClear; cbn; now destruct (inputRef st).
  - destruct onClear; cbn; now destruct (inputRef st).
  - destruct onClear; cbn; destruct (inputRef st); cbn;
      rewrite <- ?app_assoc; reflexivity.
  - unfold customEndAdornment.
    destruct clearable as [[|]|], (value st); cbn; intuition congruence.
Qed.

End Clear.

(** ** The two documents render alike *)

Section Rendering.
Context {L : DayjsApi}.

(** C10.  [createInputValue] is the same function in both documents: the
    empty string for a null or invalid value, the formatted value otherwise;
    so both versions show the same text for a picker value. *)
Theorem createInputValue_same (v : option Dayjs) (fmt : string) :
  Doc1.createInputValue v fmt = Doc2.createInputValue v fmt
  /\ Doc1.createInputValue v fmt = Spec.rendering v fmt
  /\ Doc2.createInputValue v fmt = Spec.rendering v fmt
  /\ Doc1.useInputValue_init v fmt = Doc2.useInputValue_init fmt v.
Proof.
  unfold Doc1.useInputValue_init, Doc2.useInputValue_init,
    Doc1.createInputValue, Doc2.createInputValue, Spec.rendering.
  destruct v as [d|]; cbn; [destruct (isValid d) |]; now repeat split.
Qed.

End Rendering.

(** ** Runs on the reference calendar *)

Section Runs.
Import JS Doc2.
#[local] Existing Instance Ref.api.

Lemma validate_reports_invalid (v : Ref.date) :
  Ref.ref_isValid v = false -> Ref.validate (Some v) <> None.
Proof.
  intro H. unfold Ref.validate. cbn in H. rewrite H. discriminate.
Qed.

Example parseInt10_exact : parseInt10 "0042" = Finite 42.
Proof. reflexivity. Qed.

Example parseInt10_rounds : parseInt10 "9007199254740993" = Finite 9007199254740992.
Proof. reflexivity. Qed.

Example trim_lower : toLowerCase (trim "  D12 ") = "d12".
Proof. reflexivity. Qed.

(** " D " on an empty field: today, 15 June 2025, is stored and shown. *)
Lemma blur_d_sets_today_witness :
  toLowerCase (trim " D ") = "d"
  /\ exists st',
       handleBlur "MM/DD/YYYY" None (Ref.field None " D ") {| target_value := " D " |}
       = Some st'
       /\ value st' = Some Ref.clock
       /\ inputValue st' = createInputValue (Some Ref.clock) "MM/DD/YYYY"
       /\ (isValid Ref.clock = true -> inputValue st' = format Ref.clock "MM/DD/YYYY").
Proof.
  split; [reflexivity |].
  apply (@blur_d_sets_today Ref.api "MM/DD/YYYY" None
           (Ref.field None " D ") {| target_value := " D " |}).
  reflexivity.
Defined.


(** "d999999999" runs past the dates the calendar holds: an Invalid Date
    is stored and the input is emptied. *)
Example blur_far_future :
  option_map (fun st' => (value st', inputValue st'))
    (handleBlur "MM/DD/YYYY" None (Ref.field None "d999999999")
       {| target_value := "d999999999" |})
  = Some (Some Ref.Invalid, "").
Proof. reflexivity. Qed.

(** "4/5" on an empty field: 5 April 2025 is stored and shown. *)
Lemma blur_short_date_valid_witness :
  oneOrTwoDigits "4" = true /\ oneOrTwoDigits "5" = true
  /\ trim "4/5" = "4" ++ "/" ++ "5"
  /\ isValid (dayjs_parse (shortDateText "4" "5") "MM/DD/YYYY") = true
  /\ String.length (padStart 2 "0" "4") = 2%nat
  /\ String.length (padStart 2 "0" "5") = 2%nat
  /\ shortDateText "4" "5"
     = padStart 2 "0" "4" ++ "/" ++ padStart 2 "0" "5"
       ++ "/" ++ yearToString (year Ref.clock)
  /\ exists st',
       handleBlur "MM/DD/YYYY" None (Ref.field None "4/5") {| target_value := "4/5" |}
       = Some st'
       /\ value st' = Some (dayjs_parse (shortDateText "4" "5") "MM/DD/YYYY")
       /\ inputValue st'
          = format (dayjs_parse (shortDateText "4" "5") "MM/DD/YYYY") "MM/DD/YYYY".
Proof.
  repeat (split; [reflexivity |]).
  apply (@blur_short_date_valid Ref.api "MM/DD/YYYY" None "4" "5"
           (Ref.field None "4/5") {| target_value := "4/5" |});
    reflexivity.
Defined.

Example short_date_run :
  shortDateText (L := Ref.api) "4" "5" = "04/05/2025"
  /\ dayjs_parse (shortDateText "4" "5") "MM/DD/YYYY" = Ref.Date 2025 4 5 0
  /\ format (Ref.Date 2025 4 5 0) "MM/DD/YYYY" = "04/05/2025".
Proof. repeat split. Qed.


(** "hello" matches no shorthand: the Invalid Date it parses to is stored
    and the error prop is set. *)
Lemma blur_fallback_stores_parse_witness :
  toLowerCase (trim "hello") <> "d"
  /\ test re_days (toLowerCase (trim "hello")) = false
  /\ test re_months (toLowerCase (trim "hello")) = false
  /\ test re_years (toLowerCase (trim "hello")) = false
  /\ test re_shortDate (trim "hello") = false
  /\ (forall v : Ref.date, Ref.ref_isValid v = false -> Ref.validate (Some v) <> None)
  /\ exists st',
       handleBlur "MM/DD/YYYY" None (Ref.field None "hello") {| target_value := "hello" |}
       = Some st'
       /\ value st' = Some (dayjs_parse (trim "hello") "MM/DD/YYYY")
       /\ (isValid (dayjs_parse (trim "hello") "MM/DD/YYYY") = false ->
           hasValidationError Ref.validate st' = true
           /\ tf_error (render (Some true) Ref.validate st') = true).
Proof.
  split; [discriminate |].
  repeat (split; [reflexivity |]).
  split; [exact validate_reports_invalid |].
  apply (@blur_fallback_stores_parse Ref.api "MM/DD/YYYY" None (Some true) Ref.validate
           (Ref.field None "hello") {| target_value := "hello" |});
    try reflexivity; [discriminate | exact validate_reports_invalid].
Defined.


(** Ctrl+ArrowUp over 15 June 2025. *)
Lemma keydown_ctrl_arrow_nudges_witness :
  let st := Ref.field (Some Ref.clock) "06/15/2025" in
  let ev := {| ctrlKey := true; key := "ArrowUp" |} in
  ctrlKey ev = true /\ value st = Some Ref.clock /\ key ev = "ArrowUp"
  /\ value (handleKeyDown "MM/DD/YYYY" st ev) = Some (Ref.Date 2026 6 15 37800000)
  /\ inputValue (handleKeyDown "MM/DD/YYYY" st ev) = "06/15/2026".
Proof.
  cbv zeta.
  destruct (@keydown_ctrl_arrow_nudges Ref.api "MM/DD/YYYY"
              (Ref.field (Some Ref.clock) "06/15/2025")
              {| ctrlKey := true; key := "ArrowUp" |} Ref.clock eq_refl eq_refl)
    as [Up _].
  exact (conj eq_refl (conj eq_refl (conj eq_refl (Up eq_refl)))).
Defined.


(** The guard of [handleKeyDown] asks for a Dayjs object, not for a valid
    date: over an Invalid Date, Ctrl+ArrowUp stores another Invalid Date and
    empties the input. *)
Example keydown_over_invalid_date :
  let st := Ref.field (Some Ref.Invalid) "xyz" in
  let ev := {| ctrlKey := true; key := "ArrowUp" |} in
  value (handleKeyDown "MM/DD/YYYY" st ev) = Some Ref.Invalid
  /\ inputValue (handleKeyDown "MM/DD/YYYY" st ev) = "".
Proof. split; reflexivity. Qed.

End Runs.

(** * Further properties of the code *)

(** ** Text without white space, text of white space only *)

Module ShapeFacts.
Import JS JSFacts Shape.

Lemma trimStart_noSpace (s : string) : noSpace s = true -> trimStart s = s.
Proof.
  destruct s as [|c r]; simpl; intro H; [reflexivity |].
  apply andb_true_iff in H as [Hc _].
  apply negb_true_iff in Hc. now rewrite Hc.
Qed.

Lemma trimEnd_noSpace (s : string) : noSpace s = true -> trimEnd s = s.
Proof.
  induction s as [|c r IH]; simpl; intro H; [reflexivity |].
  apply andb_true_iff in H as [Hc Hr].
  apply negb_true_iff in Hc. rewrite (IH Hr).
  destruct r; [now rewrite Hc | reflexivity].
Qed.

Lemma trim_noSpace (s : string) : noSpace s = true -> trim s = s.
Proof.
  intro H. unfold trim. rewrite (trimStart_noSpace _ H). now apply trimEnd_noSpace.
Qed.

Lemma trim_allSpace (s : string) : allSpace s = true -> trim s = EmptyString.
Proof.
  intro H. unfold trim.
  assert (E : trimStart s = EmptyString).
  { induction s as [|c r IH]; simpl in *; [reflexivity |].
    apply andb_true_iff in H as [Hc Hr]. rewrite Hc. now apply IH. }
  now rewrite E.
Qed.

Lemma digits_noSpace (s : string) : allDigits s = true -> noSpace s = true.
Proof.
  induction s as [|c r IH]; simpl; intro H; [reflexivity |].
  apply andb_true_iff in H as [Hc Hr].
  now rewrite (digit_not_space _ Hc), IH.
Qed.

(** A unit letter followed by digits is its own trimmed, lowercased form. *)
Lemma letter_digits_fixed (u : ManipulateType) (ds : string) :
  allDigits ds = true ->
  trim (String (Doc2.shorthandLetter u) ds) = String (Doc2.shorthandLetter u) ds
  /\ toLowerCase (String (Doc2.shorthandLetter u) ds)
     = String (Doc2.shorthandLetter u) ds.
Proof.
  intro H. split.
  - apply trim_noSpace. simpl. rewrite (digits_noSpace _ H).
    now destruct u.
  - simpl. rewrite (toLowerCase_digits _ H). now destruct u.
Qed.

Lemma digitsValue_nonneg (s : string) :
  allDigits s = true -> forall acc, 0 <= acc -> 0 <= digitsValue acc s.
Proof.
  induction s as [|c r IH]; cbn [digitsValue allDigits]; intros H acc Hacc;
    [assumption |].
  apply andb_true_iff in H as [Hc Hr].
  apply IH; [assumption |].
  assert (0 <= digitValue c) by (each_digit Hc; vm_compute; discriminate).
  lia.
Qed.

(** The double nearest to a natural number is a natural number or
    +Infinity. *)
Lemma roundToDouble_nonneg (m : Z) :
  0 <= m ->
  roundToDouble m = PosInfinity \/ exists z, roundToDouble m = Finite z /\ 0 <= z.
Proof.
  intro H. unfold roundToDouble.
  destruct (m <? 2 ^ 53); [right; eauto |].
  cbv zeta.
  match goal with
  | |- context [if ?c then PosInfinity else Finite ?v] =>
      destruct c; [now left | right; exists v; split; [reflexivity |]]
  end.
  apply Z.shiftl_nonneg.
  assert (Q : 0 <= Z.shiftr m (Z.log2 m - 52)) by now apply Z.shiftr_nonneg.
  match goal with
  | |- 0 <= (if ?c then _ else _) => destruct c; lia
  end.
Qed.

Lemma padStart2_digits (x : string) :
  oneOrTwoDigits x = true ->
  oneOrTwoDigits (padStart 2 "0" x) = true
  /\ padStart 2 "0" (padStart 2 "0" x) = padStart 2 "0" x.
Proof.
  unfold oneOrTwoDigits. intro H.
  destruct x as [|a [|b [|c r]]]; simpl in H;
    rewrite ?andb_false_r in H; try discriminate H.
  - rewrite !andb_true_r in H. cbn. rewrite H. now split.
  - split; [exact H | reflexivity].
Qed.

End ShapeFacts.

(** ** More on the blur handler *)

Section BlurMore.
Import JS JSFacts Doc2 Shape ShapeFacts.
Context {L : DayjsApi}.
Variable fieldFormat : string.
Variable onBlur : option Callback.

(** Whatever the branch, a blur replaces the picker value and the input
    text, possibly by themselves, and forwards the event. *)
Lemma blur_shape (st : Field) (ev : FocusEvent) :
  exists v s,
    handleBlur fieldFormat onBlur st ev
    = Some (forwardBlur onBlur (setInputValue s (setValue v st)))
    /\ (v = value st \/ exists x, v = Some x).
Proof.
  destruct (String.eqb (toLowerCase (trim (target_value ev))) "d") eqn:E1.
  { apply String.eqb_eq in E1.
    rewrite (@blur_today_run L fieldFormat onBlur st ev E1). eauto 6. }
  assert (A : forall u ds,
             toLowerCase (trim (target_value ev)) = String (shorthandLetter u) ds
             /\ allDigits ds = true /\ ds <> EmptyString ->
             exists v s,
               handleBlur fieldFormat onBlur st ev
               = Some (forwardBlur onBlur (setInputValue s (setValue v st)))
               /\ (v = value st \/ exists x, v = Some x)).
  { intros u ds [Hs [Hd Hn]].
    rewrite (@blur_add_run L fieldFormat onBlur u ds st ev Hd Hn Hs). eauto 6. }
  destruct (test re_days (toLowerCase (trim (target_value ev)))) eqn:E2.
  { apply test_letter_digits in E2 as [ds E2]. exact (A day ds E2). }
  destruct (test re_months (toLowerCase (trim (target_value ev)))) eqn:E3.
  { apply test_letter_digits in E3 as [ds E3]. exact (A month ds E3). }
  destruct (test re_years (toLowerCase (trim (target_value ev)))) eqn:E4.
  { apply test_letter_digits in E4 as [ds E4]. exact (A year_unit ds E4). }
  destruct (test re_shortDate (trim (target_value ev))) eqn:E5.
  - apply test_shortDate in E5 as [m [d [Hs [Hm Hd]]]].
    rewrite (@blur_shortDate_run L fieldFormat onBlur m d st ev Hm Hd Hs). cbv zeta.
    destruct (isValid (dayjs_parse (shortDateText m d) "MM/DD/YYYY")).
    + eauto 6.
    + exists (value st), (inputValue st). split; [| now left].
      now destruct st.
  - rewrite (@blur_fallback_run L fieldFormat onBlur st ev E1 E2 E3 E4 E5).
    exists (Some (dayjs_parse (trim (target_value ev)) fieldFormat)), (inputValue st).
    split; [| eauto]. now destruct st.
Qed.

(** X1.  The blur handler never throws: whenever the short-date pattern
    lets a text through, [split] gives the two parts the handler pads. *)
Theorem blur_never_throws (st : Field) (ev : FocusEvent) :
  exists st', handleBlur fieldFormat onBlur st ev = Some st'.
Proof.
  destruct (blur_shape st ev) as [v [s [H _]]]. rewrite H. eauto.
Qed.

(** X2.  Every blur forwards the event to the original [onBlur] once when
    there is one, makes no other call, and leaves the picker's open flag,
    [lastValueProp] and both refs as they were. *)
Theorem blur_forwards_once (st : Field) (ev : FocusEvent) :
  exists st',
    handleBlur fieldFormat onBlur st ev = Some st'
    /\ calls st' = (calls st ++ match onBlur with
                               | Some f => [Invoke f]
                               | None => []
                               end)%list
    /\ pickerOpen st' = pickerOpen st
    /\ lastValueProp st' = lastValueProp st
    /\ shouldMaintainFocusRef st' = shouldMaintainFocusRef st
    /\ inputRef st' = inputRef st.
Proof.
  destruct (blur_shape st ev) as [v [s [H _]]]. rewrite H.
  eexists. split; [reflexivity |].
  unfold forwardBlur. destruct onBlur; cbn; rewrite ?app_nil_r; now repeat split.
Qed.

(** X3.  A blur never empties the picker: it stores a Dayjs object or
    leaves the value it found. *)
Theorem blur_never_stores_null (st : Field) (ev : FocusEvent) :
  exists st',
    handleBlur fieldFormat onBlur st ev = Some st'
    /\ (value st' = value st \/ exists x, value st' = Some x).
Proof.
  destruct (blur_shape st ev) as [v [s [H Hv]]]. rewrite H.
  eexists. split; [reflexivity |].
  now rewrite forwardBlur_value.
Qed.

(** X4.  The patterns accept what their comments say and nothing else: a
    unit's pattern accepts its letter followed by one digit or more, the
    short-date pattern one or two digits, a slash, one or two digits. *)
Theorem blur_patterns_accept (s : string) :
  (forall u, test (patternOf u) s = true
             <-> exists ds, s = String (shorthandLetter u) ds
                            /\ allDigits ds = true /\ ds <> EmptyString)
  /\ (test re_shortDate s = true
      <-> exists m d, s = m ++ "/" ++ d
                      /\ oneOrTwoDigits m = true /\ oneOrTwoDigits d = true).
Proof.
  split.
  - intro u. destruct u; apply test_letter_digits.
  - apply test_shortDate.
Qed.

(** X5.  The five tests of the blur handler exclude one another: no text
    is recognised by two branches, so their order does not matter. *)
Theorem blur_tests_exclusive (cur : string) :
  (Nat.b2n (String.eqb (toLowerCase cur) "d")
   + Nat.b2n (test re_days (toLowerCase cur))
   + Nat.b2n (test re_months (toLowerCase cur))
   + Nat.b2n (test re_years (toLowerCase cur))
   + Nat.b2n (test re_shortDate cur) <= 1)%nat.
Proof.
  destruct (test re_shortDate cur) eqn:E5.
  - apply test_shortDate in E5 as [m [d [-> [Hm Hd]]]].
    pose proof (oneOrTwo_allDigits _ Hm) as Dm.
    pose proof (oneOrTwo_allDigits _ Hd) as Dd.
    rewrite toLowerCase_app. cbn [toLowerCase].
    rewrite (toLowerCase_digits _ Dm), (toLowerCase_digits _ Dd).
    destruct (oneOrTwo_first _ Hm) as [c [r [-> Hc]]].
    cbn [append String.eqb]. unfold re_days, re_months, re_years.
    rewrite (test_other_first "d" c _ _ (digit_not_char c "d" Hc eq_refl)).
    rewrite (test_other_first "m" c _ _ (digit_not_char c "m" Hc eq_refl)).
    rewrite (test_other_first "y" c _ _ (digit_not_char c "y" Hc eq_refl)).
    rewrite (digit_not_char c "d" Hc eq_refl). cbn. lia.
  - destruct (toLowerCase cur) as [|c r]; [cbn; lia |].
    unfold re_days, re_months, re_years. cbn [String.eqb].
    destruct (Ascii.eqb_spec c "d") as [-> | Nd].
    + rewrite (test_other_first "m" "d" _ _ eq_refl).
      rewrite (test_other_first "y" "d" _ _ eq_refl).
      destruct r as [|c' r'].
      * cbn. lia.
      * cbn [String.eqb andb Nat.b2n].
        match goal with
        | |- context [Nat.b2n (test ?p ?t)] => destruct (test p t)
        end; cbn [Nat.b2n]; lia.
    + rewrite (test_other_first "d" c _ _ (proj2 (Ascii.eqb_neq c "d") Nd)).
      cbn [andb Nat.b2n].
      destruct (Ascii.eqb_spec c "m") as [-> | Nm].
      * rewrite (test_other_first "y" "m" _ _ eq_refl).
        match goal with
        | |- context [Nat.b2n (test ?p ?t)] => destruct (test p t)
        end; cbn [Nat.b2n]; lia.
      * rewrite (test_other_first "m" c _ _ (proj2 (Ascii.eqb_neq c "m") Nm)).
        match goal with
        | |- context [Nat.b2n (test ?p ?t)] => destruct (test p t)
        end; cbn [Nat.b2n]; lia.
Qed.

(** X6.  When a unit's pattern lets the lowercased text through, the
    amount [parseInt] reads after the letter is a natural number or
    +Infinity: never NaN, never negative. *)
Theorem shorthand_amount_is_natural (u : ManipulateType) (lower : string) :
  test (patternOf u) lower = true ->
  parseInt10 (substring 1 lower) = PosInfinity
  \/ exists z, parseInt10 (substring 1 lower) = Finite z /\ 0 <= z.
Proof.
  intro H.
  assert (E : exists ds, lower = String (shorthandLetter u) ds
                         /\ allDigits ds = true /\ ds <> EmptyString).
  { destruct u; now apply test_letter_digits. }
  destruct E as [ds [-> [Hd Hn]]]. cbn [substring].
  rewrite (parseInt10_digits Hd Hn).
  apply roundToDouble_nonneg. now apply digitsValue_nonneg.
Qed.

End BlurMore.

(** ** Texts the blur handler treats alike *)

Section BlurAlike.
Import JS JSFacts Doc2 Shape ShapeFacts.
Context {L : DayjsApi}.
Variable fieldFormat : string.
Variable onBlur : option Callback.

Lemma noSpace_short_date (m d : string) :
  allDigits m = true -> allDigits d = true -> noSpace (m ++ "/" ++ d) = true.
Proof.
  intros Hm Hd. induction m as [|c r IH]; cbn [append noSpace].
  - now rewrite (digits_noSpace _ Hd).
  - cbn [allDigits] in Hm. apply andb_true_iff in Hm as [Hc Hr].
    rewrite (digit_not_space _ Hc). cbn [negb andb]. now apply IH.
Qed.

(** X7.  Shorthands ignore case and surrounding white space: a text whose
    trimmed, lowercased form is "d", "d<n>", "m<n>" or "y<n>" is handled
    exactly as that form. *)
Theorem blur_shorthand_normal_form (st : Field) (ev : FocusEvent) :
  isShorthand (toLowerCase (trim (target_value ev))) ->
  handleBlur fieldFormat onBlur st ev
  = handleBlur fieldFormat onBlur st
      {| target_value := toLowerCase (trim (target_value ev)) |}.
Proof.
  intros [E | [u [ds [E [Hd Hn]]]]]; rewrite E.
  - rewrite (@blur_today_run L fieldFormat onBlur st ev E).
    now rewrite (@blur_today_run L fieldFormat onBlur st {| target_value := "d" |} eq_refl).
  - destruct (letter_digits_fixed u ds Hd) as [T W].
    rewrite (@blur_add_run L fieldFormat onBlur u ds st ev Hd Hn E).
    rewrite (@blur_add_run L fieldFormat onBlur u ds st
               {| target_value := String (shorthandLetter u) ds |} Hd Hn);
      [reflexivity |].
    cbn [target_value]. now rewrite T, W.
Qed.

(** X8.  A zero before the amount changes nothing: "d07" is handled as
    "d7", for every unit and every amount. *)
Theorem blur_leading_zero (u : ManipulateType) (ds : string) (st : Field) (ev : FocusEvent) :
  allDigits ds = true -> ds <> EmptyString ->
  toLowerCase (trim (target_value ev)) = String (shorthandLetter u) (String "0" ds) ->
  handleBlur fieldFormat onBlur st ev
  = handleBlur fieldFormat onBlur st
      {| target_value := String (shorthandLetter u) ds |}.
Proof.
  intros Hd Hn E.
  destruct (letter_digits_fixed u ds Hd) as [T W].
  assert (Hd0 : allDigits (String "0" ds) = true) by exact Hd.
  assert (Hn0 : String "0" ds <> EmptyString) by discriminate.
  rewrite (@blur_add_run L fieldFormat onBlur u (String "0" ds) st ev Hd0 Hn0 E).
  rewrite (@blur_add_run L fieldFormat onBlur u ds st
             {| target_value := String (shorthandLetter u) ds |} Hd Hn);
    [reflexivity |].
  cbn [target_value]. now rewrite T, W.
Qed.

(** X9.  A short date may be typed with or without the zeros: "4/5" is
    handled exactly as "04/05". *)
Theorem blur_short_date_padding (m d : string) (st : Field) (ev : FocusEvent) :
  oneOrTwoDigits m = true -> oneOrTwoDigits d = true ->
  trim (target_value ev) = m ++ "/" ++ d ->
  handleBlur fieldFormat onBlur st ev
  = handleBlur fieldFormat onBlur st
      {| target_value := padStart 2 "0" m ++ "/" ++ padStart 2 "0" d |}.
Proof.
  intros Hm Hd E.
  destruct (padStart2_digits m Hm) as [Pm Im].
  destruct (padStart2_digits d Hd) as [Pd Id].
  rewrite (@blur_shortDate_run L fieldFormat onBlur m d st ev Hm Hd E).
  rewrite (@blur_shortDate_run L fieldFormat onBlur
             (padStart 2 "0" m) (padStart 2 "0" d) st
             {| target_value := padStart 2 "0" m ++ "/" ++ padStart 2 "0" d |} Pm Pd).
  - unfold shortDateText. now rewrite Im, Id.
  - cbn [target_value]. apply trim_noSpace.
    apply noSpace_short_date; now apply oneOrTwo_allDigits.
Qed.

(** X10.  A blur on an empty input, or on white space alone, is no clear:
    the text is parsed like any other, the picker value becomes
    [dayjs("", fieldFormat)] and the input keeps its text. *)
Theorem blur_blank_text (st : Field) (ev : FocusEvent) :
  allSpace (target_value ev) = true ->
  exists st',
    handleBlur fieldFormat onBlur st ev = Some st'
    /\ value st' = Some (dayjs_parse "" fieldFormat)
    /\ inputValue st' = inputValue st.
Proof.
  intro H. pose proof (trim_allSpace _ H) as T.
  rewrite (@blur_fallback_run L fieldFormat onBlur st ev);
    try (rewrite T; reflexivity).
  eexists. split; [reflexivity |].
  rewrite forwardBlur_value, forwardBlur_inputValue. cbn. now rewrite T.
Qed.

End BlurAlike.

(** ** Effects, shortcuts and buttons over the life of a field *)

Section Life.
Import JS Doc2 Lifecycle.
Context {L : DayjsApi}.
Variable fieldFormat : string.
Variable clearable : option bool.
Variable onClear : option Callback.
Variable validateDate : option Dayjs -> option string.

(** When the value is the one last rendered and the input shows it, the
    effect of [useInputValue] changes nothing. *)
Lemma effect_at_rest (st : Field) :
  lastValueProp st = value st -> inSync fieldFormat st ->
  useInputValue_effect fieldFormat st = st.
Proof.
  unfold inSync, useInputValue_effect. intros Hl Hs.
  destruct st as [v o i l m r c]. cbn in *. subst l i.
  destruct v as [d|]; cbn; [destruct (isSame d (Some d)) |]; reflexivity.
Qed.

(** X11.  The effect of [useInputValue] never touches the picker value, and
    either shows the rendering of the value or, finding the value the same
    as the one it last rendered, leaves the text as it is. *)
Theorem effect_shows_or_keeps (st : Field) :
  value (useInputValue_effect fieldFormat st) = value st
  /\ (inputValue (useInputValue_effect fieldFormat st)
      = createInputValue (value st) fieldFormat
      \/ (inputValue (useInputValue_effect fieldFormat st) = inputValue st
          /\ exists v, value st = Some v /\ isSame v (lastValueProp st) = true)).
Proof. exact (useInputValue_effect_cases fieldFormat st). Qed.

(** X12.  The effect settles in one run: it writes [lastValueProp], which
    is one of its own dependencies, yet running it again changes nothing
    more, so the re-render it causes is the last. *)
Theorem effect_settles (st : Field) :
  useInputValue_effect fieldFormat (useInputValue_effect fieldFormat st)
  = useInputValue_effect fieldFormat st.
Proof.
  assert (E : useInputValue_effect fieldFormat st = st
              \/ useInputValue_effect fieldFormat st
                 = setInputValue (createInputValue (value st) fieldFormat)
                     (setLastValueProp (value st) st)).
  { unfold useInputValue_effect.
    match goal with
    | |- context [if ?c then _ else _] => destruct c; auto
    end. }
  destruct E as [E | E]; rewrite E; [exact E |].
  apply effect_at_rest; reflexivity.
Qed.

(** X13.  A field just mounted shows the rendering of its value, and the
    first run of the effect leaves it alone. *)
Theorem mount_in_sync (v : option Dayjs) :
  inSync fieldFormat (mount fieldFormat v)
  /\ useInputValue_effect fieldFormat (mount fieldFormat v) = mount fieldFormat v.
Proof.
  split; [reflexivity |]. apply effect_at_rest; reflexivity.
Qed.

(** X14.  Showing the rendering of the picker value is kept by the effects,
    by the key-down handler and by both buttons: once the input is in step
    with the value, only typing or a blur can take it out of step. *)
Theorem in_sync_kept (st : Field) (ev : KeyboardEvent) (b : Button) :
  inSync fieldFormat st ->
  inSync fieldFormat (useInputValue_effect fieldFormat st)
  /\ inSync fieldFormat (maintainFocus_effect st)
  /\ inSync fieldFormat (handleKeyDown fieldFormat st ev)
  /\ inSync fieldFormat (activate onClear b st).
Proof.
  unfold inSync. intro H. split; [| split; [| split]].
  - unfold useInputValue_effect.
    match goal with
    | |- context [if ?c then _ else _] => destruct c
    end; [reflexivity | exact H].
  - unfold maintainFocus_effect.
    destruct (shouldMaintainFocusRef st); [| exact H].
    cbn. destruct (inputRef st); exact H.
  - unfold handleKeyDown.
    destruct (ctrlKey ev && truthy (value st) && isDayjs (value st)); [| exact H].
    destruct (value st) as [v|] eqn:V; [| now rewrite V].
    destruct (String.eqb (key ev) "ArrowUp"); [reflexivity |].
    destruct (String.eqb (key ev) "ArrowDown"); [reflexivity |].
    destruct (String.eqb (key ev) "ArrowRight"); [reflexivity |].
    destruct (String.eqb (key ev) "ArrowLeft"); [reflexivity |].
    cbn. now rewrite V.
  - destruct b; cbn; [| exact H].
    unfold handleClearClick. destruct onClear; cbn; now destruct (inputRef st).
Qed.


(** X16.  Only a shortcut arms the focus: after typing or after the clear
    button, a focus effect that was not armed does nothing, so the field
    takes the focus back only after a nudge. *)
Theorem focus_only_after_nudge (st : Field) (text : string) :
  shouldMaintainFocusRef st = false ->
  maintainFocus_effect st = st
  /\ maintainFocus_effect (handleChange st text) = handleChange st text
  /\ maintainFocus_effect (handleClearClick onClear st) = handleClearClick onClear st.
Proof.
  intro H. unfold maintainFocus_effect, handleClearClick, handleChange.
  repeat split.
  - now rewrite H.
  - cbn. now rewrite H.
  - destruct onClear; cbn; destruct (inputRef st); cbn; now rewrite H.
Qed.

(** X17.  Once pressed, the clear button is gone: it is not drawn over the
    state it leaves.  The calendar button is always drawn, last, after at
    most the clear button. *)
Theorem clear_button_gone_once_pressed (st : Field) :
  ~ In ClearButton (customEndAdornment clearable (activate onClear ClearButton st))
  /\ (customEndAdornment clearable st = [CalendarButton]
      \/ customEndAdornment clearable st = [ClearButton; CalendarButton]).
Proof.
  split.
  - unfold customEndAdornment, activate, handleClearClick.
    assert (V : forall s : Field,
               value (if inputRef s then call Focus s else s) = value s).
    { intro s. now destruct (inputRef s). }
    rewrite V. destruct onClear; cbn; rewrite andb_false_r; cbn;
      intros [H | []]; discriminate H.
  - unfold customEndAdornment.
    destruct (truthyFlag clearable && truthy (value st)); cbn; auto.
Qed.

Lemma last_cons {A : Type} (ts : list A) :
  forall t d, last (t :: ts) d = last ts t.
Proof.
  induction ts as [|a ts IH]; intros t d; [reflexivity |].
  change (last (t :: a :: ts) d) with (last (a :: ts) d).
  now rewrite (IH a d), (IH a t).
Qed.

(** Typing comes down to showing the last text typed. *)
Lemma typing_run (texts : list string) :
  forall st, typing texts st = setInputValue (last texts (inputValue st)) st.
Proof.
  unfold typing. induction texts as [|t ts IH]; intro st.
  - now destruct st.
  - cbn [fold_left]. rewrite IH, last_cons. reflexivity.
Qed.

(** X18.  Typing alone never reaches the picker: after any number of
    change events the picker value, the error flag and the buttons are what
    they were, no call has been made, and the input shows the last text
    typed. *)
Theorem typing_never_parses (texts : list string) (st : Field) :
  value (typing texts st) = value st
  /\ hasValidationError validateDate (typing texts st)
     = hasValidationError validateDate st
  /\ customEndAdornment clearable (typing texts st) = customEndAdornment clearable st
  /\ calls (typing texts st) = calls st
  /\ inputValue (typing texts st) = last texts (inputValue st).
Proof. rewrite typing_run. now repeat split. Qed.

End Life.

(** ** The first document *)

Section FirstDocument.
Import JS.
Context {L : DayjsApi}.
Variable fieldFormat : string.
Variable clearable : option bool.
Variable onClear : option Doc2.Callback.
Variable onBlur : option Doc2.Callback.

(** X19.  The second document extends the blur handler of the first: on a
    text without surrounding white space that is none of the new
    shorthands ("d<n>", "m<n>", "y<n>", "<m>/<d>"), both handlers leave the
    same picker value, input text and calls. *)
Theorem blur_versions_agree (st : Doc2.Field) (ev : Doc2.FocusEvent) :
  trim (Doc2.target_value ev) = Doc2.target_value ev ->
  test Doc2.re_days (toLowerCase (Doc2.target_value ev)) = false ->
  test Doc2.re_months (toLowerCase (Doc2.target_value ev)) = false ->
  test Doc2.re_years (toLowerCase (Doc2.target_value ev)) = false ->
  test Doc2.re_shortDate (Doc2.target_value ev) = false ->
  option_map Doc1Field.ofDoc2 (Doc2.handleBlur fieldFormat onBlur st ev)
  = Some (Doc1Field.handleBlur fieldFormat onBlur (Doc1Field.ofDoc2 st) ev).
Proof.
  intros T E2 E3 E4 E5.
  unfold Doc2.handleBlur, Doc1Field.handleBlur. cbv zeta.
  rewrite T, E2, E3, E4, E5.
  destruct (String.eqb (toLowerCase (Doc2.target_value ev)) "d");
    unfold Doc2.forwardBlur; destruct onBlur; reflexivity.
Qed.

(** X20.  The first document parses on every keystroke: typing any text
    but "d" or "D" stores its parse in the picker, typing "d" or "D" leaves
    the picker alone; and a blur on the text just typed, unless it is "d",
    only forwards the event. *)
Theorem first_typing_parses (st : Doc1Field.Field) (text : string) :
  (toLowerCase text = "d" ->
   Doc1Field.value (Doc1Field.handleChange fieldFormat st text) = Doc1Field.value st)
  /\ (toLowerCase text <> "d" ->
      Doc1Field.value (Doc1Field.handleChange fieldFormat st text)
      = Some (dayjs_parse text fieldFormat)
      /\ Doc1Field.handleBlur fieldFormat onBlur
           (Doc1Field.handleChange fieldFormat st text)
           {| Doc2.target_value := text |}
         = match onBlur with
           | Some f => Doc1Field.call (Doc2.Invoke f)
                         (Doc1Field.handleChange fieldFormat st text)
           | None => Doc1Field.handleChange fieldFormat st text
           end).
Proof.
  unfold Doc1Field.handleChange, Doc1Field.handleBlur. cbv zeta.
  cbn [Doc2.target_value].
  destruct (String.eqb_spec (toLowerCase text) "d") as [E | N]; split; intro H;
    try contradiction; cbn [negb]; [reflexivity |].
  split; [reflexivity |]. now destruct onBlur.
Qed.

(** X21.  The clear handler of the first document sets the picker value to
    null and leaves the text to the effect of [useInputValue], which then
    empties the input: after the two, value and [lastValueProp] are null
    and the text is empty. *)
Theorem first_clear_then_effect (st : Doc1Field.Field) :
  Doc1Field.inputValue (Doc1Field.handleClearClick onClear st) = Doc1Field.inputValue st
  /\ Doc1Field.value (Doc1Field.handleClearClick onClear st) = None
  /\ Doc1Field.value
       (Doc1Field.useInputValue_effect fieldFormat
          (Doc1Field.handleClearClick onClear st)) = None
  /\ Doc1Field.inputValue
       (Doc1Field.useInputValue_effect fieldFormat
          (Doc1Field.handleClearClick onClear st)) = ""
  /\ Doc1Field.lastValueProp
       (Doc1Field.useInputValue_effect fieldFormat
          (Doc1Field.handleClearClick onClear st)) = None.
Proof.
  unfold Doc1Field.handleClearClick, Doc1Field.useInputValue_effect.
  destruct onClear; cbn; now repeat split.
Qed.

(** X22.  In the first document the clear button cannot be drawn: its icon
    is a name the document does not define, so the adornment fails exactly
    when [clearable] is set and the picker holds a value, which with
    [clearable] set is the case after every blur. *)
Theorem first_clear_button_fails (st : Doc1Field.Field) (ev : Doc2.FocusEvent) :
  (Doc1Field.customEndAdornment clearable st = None
   <-> clearable = Some true /\ Doc1Field.value st <> None)
  /\ (clearable = Some true ->
      Doc1Field.customEndAdornment clearable
        (Doc1Field.handleBlur fieldFormat onBlur st ev) = None).
Proof.
  unfold Doc1Field.customEndAdornment. split.
  - destruct clearable as [[|]|], (Doc1Field.value st); cbn;
      intuition congruence.
  - intros ->. unfold Doc1Field.handleBlur. cbv zeta.
    destruct (String.eqb (toLowerCase (Doc2.target_value ev)) "d"), onBlur;
      reflexivity.
Qed.

End FirstDocument.

(** ** The wrapper around the picker *)

Section PickerProps.
Import Picker.


End PickerProps.

(** ** More runs on the reference calendar *)

Section MoreRuns.
Import JS Doc2 Shape Lifecycle.
#[local] Existing Instance Ref.api.

(** "d12": the amount is 12. *)
Lemma shorthand_amount_is_natural_witness :
  test (patternOf day) "d12" = true
  /\ (parseInt10 (substring 1 "d12") = PosInfinity
      \/ exists z, parseInt10 (substring 1 "d12") = Finite z /\ 0 <= z).
Proof.
  split; [reflexivity |].
  apply (@shorthand_amount_is_natural day "d12"). reflexivity.
Defined.

Lemma shorthand_D3 : isShorthand (toLowerCase (trim " D3 ")).
Proof.
  right. exists day, "3". repeat split. discriminate.
Qed.

(** " D3 " is handled as "d3". *)
Lemma blur_shorthand_normal_form_witness :
  isShorthand (toLowerCase (trim " D3 "))
  /\ handleBlur "MM/DD/YYYY" None (Ref.field None " D3 ") {| target_value := " D3 " |}
     = handleBlur "MM/DD/YYYY" None (Ref.field None " D3 ")
         {| target_value := toLowerCase (trim " D3 ") |}.
Proof.
  split; [exact shorthand_D3 |].
  apply (@blur_shorthand_normal_form Ref.api "MM/DD/YYYY" None
           (Ref.field None " D3 ") {| target_value := " D3 " |}).
  exact shorthand_D3.
Defined.

(** "d07" is handled as "d7". *)
Lemma blur_leading_zero_witness :
  allDigits "7" = true /\ "7" <> EmptyString
  /\ toLowerCase (trim "d07") = String (shorthandLetter day) (String "0" "7")
  /\ handleBlur "MM/DD/YYYY" None (Ref.field None "d07") {| target_value := "d07" |}
     = handleBlur "MM/DD/YYYY" None (Ref.field None "d07")
         {| target_value := String (shorthandLetter day) "7" |}.
Proof.
  split; [reflexivity |]. split; [discriminate |]. split; [reflexivity |].
  apply (@blur_leading_zero Ref.api "MM/DD/YYYY" None day "7"
           (Ref.field None "d07") {| target_value := "d07" |});
    [reflexivity | discriminate | reflexivity].
Defined.

(** "4/5" is handled as "04/05". *)
Lemma blur_short_date_padding_witness :
  oneOrTwoDigits "4" = true /\ oneOrTwoDigits "5" = true
  /\ trim "4/5" = "4" ++ "/" ++ "5"
  /\ handleBlur "MM/DD/YYYY" None (Ref.field None "4/5") {| target_value := "4/5" |}
     = handleBlur "MM/DD/YYYY" None (Ref.field None "4/5")
         {| target_value := padStart 2 "0" "4" ++ "/" ++ padStart 2 "0" "5" |}.
Proof.
  split; [reflexivity |]. split; [reflexivity |]. split; [reflexivity |].
  apply (@blur_short_date_padding Ref.api "MM/DD/YYYY" None "4" "5"
           (Ref.field None "4/5") {| target_value := "4/5" |});
    reflexivity.
Defined.

(** Two spaces over a stored date: the date is replaced by the parse of the
    empty text, an Invalid Date here. *)
Lemma blur_blank_text_witness :
  allSpace "  " = true
  /\ exists st',
       handleBlur "MM/DD/YYYY" None (Ref.field (Some Ref.clock) "  ")
         {| target_value := "  " |} = Some st'
       /\ value st' = Some (dayjs_parse "" "MM/DD/YYYY")
       /\ inputValue st' = inputValue (Ref.field (Some Ref.clock) "  ").
Proof.
  split; [reflexivity |].
  apply (@blur_blank_text Ref.api "MM/DD/YYYY" None
           (Ref.field (Some Ref.clock) "  ") {| target_value := "  " |}).
  reflexivity.
Defined.

(** A field mounted over 15 June 2025, Ctrl+ArrowLeft, the clear button. *)
Lemma in_sync_kept_witness :
  inSync "MM/DD/YYYY" (mount (L := Ref.api) "MM/DD/YYYY" (Some Ref.clock))
  /\ inSync "MM/DD/YYYY"
       (useInputValue_effect "MM/DD/YYYY" (mount (L := Ref.api) "MM/DD/YYYY" (Some Ref.clock)))
  /\ inSync "MM/DD/YYYY" (maintainFocus_effect (mount (L := Ref.api) "MM/DD/YYYY" (Some Ref.clock)))
  /\ inSync "MM/DD/YYYY"
       (handleKeyDown "MM/DD/YYYY" (mount (L := Ref.api) "MM/DD/YYYY" (Some Ref.clock))
          {| ctrlKey := true; key := "ArrowLeft" |})
  /\ inSync "MM/DD/YYYY"
       (activate (Some 0%nat) ClearButton (mount (L := Ref.api) "MM/DD/YYYY" (Some Ref.clock))).
Proof.
  split; [reflexivity |].
  apply (@in_sync_kept Ref.api "MM/DD/YYYY" (Some 0%nat)
           (mount (L := Ref.api) "MM/DD/YYYY" (Some Ref.clock))
           {| ctrlKey := true; key := "ArrowLeft" |} ClearButton).
  reflexivity.
Defined.


(** Typing and clearing over a field whose focus is not armed. *)
Lemma focus_only_after_nudge_witness :
  shouldMaintainFocusRef (Ref.field (Some Ref.clock) "06/15/2025") = false
  /\ maintainFocus_effect (Ref.field (Some Ref.clock) "06/15/2025")
     = Ref.field (Some Ref.clock) "06/15/2025"
  /\ maintainFocus_effect (handleChange (Ref.field (Some Ref.clock) "06/15/2025") "d")
     = handleChange (Ref.field (Some Ref.clock) "06/15/2025") "d"
  /\ maintainFocus_effect
       (handleClearClick (Some 0%nat) (Ref.field (Some Ref.clock) "06/15/2025"))
     = handleClearClick (Some 0%nat) (Ref.field (Some Ref.clock) "06/15/2025").
Proof.
  split; [reflexivity |].
  apply (@focus_only_after_nudge Ref.api (Some 0%nat)
           (Ref.field (Some Ref.clock) "06/15/2025") "d").
  reflexivity.
Defined.

(** "06/15/2025" is no shorthand: both documents parse it. *)
Lemma blur_versions_agree_witness :
  trim "06/15/2025" = "06/15/2025"
  /\ test re_days (toLowerCase "06/15/2025") = false
  /\ test re_months (toLowerCase "06/15/2025") = false
  /\ test re_years (toLowerCase "06/15/2025") = false
  /\ test re_shortDate "06/15/2025" = false
  /\ option_map Doc1Field.ofDoc2
       (handleBlur "MM/DD/YYYY" (Some 1%nat) (Ref.field None "06/15/2025")
          {| target_value := "06/15/2025" |})
     = Some (Doc1Field.handleBlur "MM/DD/YYYY" (Some 1%nat)
               (Doc1Field.ofDoc2 (Ref.field None "06/15/2025"))
               {| target_value := "06/15/2025" |}).
Proof.
  repeat (split; [reflexivity |]).
  apply (@blur_versions_agree Ref.api "MM/DD/YYYY" (Some 1%nat)
           (Ref.field None "06/15/2025") {| target_value := "06/15/2025" |});
    reflexivity.
Defined.

End MoreRuns.
